(** * vscode-bazel: command construction and gtest discovery

    A shallow embedding of
      - [src/workspace-tree/bazel_target_tree_item.ts]
      - [src/workspace-tree/bazel_gtest_tree_item.ts]
      - [src/extension/bazel_wrapper_commands.ts]
    and the properties of them that the specification states.

    JavaScript strings are sequences of UTF-16 code units; they are modelled
    as [list N], one number per code unit.  Objects and arrays that the
    commands share and update live in an explicit heap, and every call into
    the host (tasks, queries, the debugger, the quick pick) is recorded in a
    trace. *)

From Stdlib Require Import NArith ZArith Lia.
From stdpp Require Import base list strings.

Set Default Proof Using "Type".
Local Open Scope N_scope.

(** ** JavaScript strings *)

Abbreviation jsstring := (list N).

(** A literal of the source, as its code units (literals are ASCII). *)
Definition str (s : string) : jsstring :=
  map (fun a => N.of_nat (Ascii.nat_of_ascii a)) (String.list_ascii_of_string s).
Arguments str : simpl never.

Definition LF : N := 10.     (* "\n" *)
Definition HASH : N := 35.   (* "#" *)
Definition SPACE : N := 32.  (* " " *)

(** [WhiteSpace] and [LineTerminator] of ECMA-262: the code units that
    [String.prototype.trim] strips. *)
Definition isWhiteSpace (c : N) : bool :=
  (c =? 9) || (c =? 10) || (c =? 11) || (c =? 12) || (c =? 13) || (c =? 32)
  || (c =? 160) || (c =? 5760) || ((8192 <=? c) && (c <=? 8202))
  || (c =? 8232) || (c =? 8233) || (c =? 8239) || (c =? 8287)
  || (c =? 12288) || (c =? 65279).

Fixpoint trimStart (s : jsstring) : jsstring :=
  match s with
  | [] => []
  | c :: s' => if isWhiteSpace c then trimStart s' else s
  end.

Definition trimEnd (s : jsstring) : jsstring := rev (trimStart (rev s)).

(** [s.trim()] *)
Definition trim (s : jsstring) : jsstring := trimEnd (trimStart s).

(** [s.startsWith(p)] *)
Fixpoint startsWith (s p : jsstring) : bool :=
  match p, s with
  | [], _ => true
  | _ :: _, [] => false
  | a :: p', b :: s' => (b =? a) && startsWith s' p'
  end.

(** [s.split(sep)] for a separator of one code unit, which is what both
    call sites pass ("\n" and "#").  The result is never empty: the empty
    string splits into one empty piece. *)
Fixpoint split (sep : N) (s : jsstring) : list jsstring :=
  match s with
  | [] => [[]]
  | c :: s' =>
      if c =? sep then [] :: split sep s'
      else match split sep s' with
           | p :: ps => (c :: p) :: ps
           | [] => [[c]]
           end
  end.

(** ** Completions: a value, or a thrown error *)

Inductive JsError : Type :=
  | Error (message : jsstring)   (* [new Error(message)] *)
  | TypeError                    (* a member access on [undefined] *)
  | Rejected (reason : jsstring) (* a rejected promise of the host *).

Inductive Completion (A : Type) : Type :=
  | Normal (a : A)
  | Throw (e : JsError).
Arguments Normal {A} a.
Arguments Throw {A} e.

(** ** Tree items *)

Record BazelWorkspaceInfo := {
  bazelWorkspacePath : jsstring;
  workspaceFolder : jsstring;
}.

(** [blaze_query.ITarget]: the rule's label and class (the location is only
    used for navigation). *)
Record ITarget := {
  rule_name : jsstring;
  rule_ruleClass : jsstring;
}.

(** [Resources] only locates icon files. *)
Record Resources := { iconsPath : jsstring }.

Record BazelTargetTreeItem := {
  tt_resources : Resources;
  tt_workspaceInfo : BazelWorkspaceInfo;
  tt_target : ITarget;
}.

(** [comment?: string]: [None] is the omitted argument. *)
Record BazelGTestTreeItem := {
  gt_resources : Resources;
  gt_workspaceInfo : BazelWorkspaceInfo;
  gt_target : ITarget;
  testName : jsstring;
  comment : option jsstring;
}.

(** ** [BazelTargetTreeItem.parseGtestList] *)

(** [xs[i].trim()]: reading past the end gives [undefined], whose [trim]
    is a [TypeError]. *)
Definition trimAt (xs : list jsstring) (i : nat) : Completion jsstring :=
  match xs !! i with
  | Some s => Normal (trim s)
  | None => Throw TypeError
  end.

(** The two variables the [forEach] callback closes over. *)
Record ParseState := {
  currentTestGroup : jsstring;
  allTests : list BazelGTestTreeItem;
}.

(** The body of the callback, for one [line]. *)
Definition parseGtestLine (this : BazelTargetTreeItem) (st : ParseState)
    (line : jsstring) : Completion ParseState :=
  if startsWith line (str "  ") then
    let split_ := split HASH line in
    if Nat.eqb (length split_) 2 then
      match trimAt split_ 0 with
      | Throw e => Throw e
      | Normal s0 =>
          match trimAt split_ 1 with
          | Throw e => Throw e
          | Normal s1 =>
              Normal {| currentTestGroup := currentTestGroup st;
                        allTests := allTests st ++
                          [ {| gt_resources := tt_resources this;
                               gt_workspaceInfo := tt_workspaceInfo this;
                               gt_target := tt_target this;
                               testName := currentTestGroup st ++ s0;
                               comment := Some s1 |} ] |}
          end
      end
    else
      match trimAt split_ 0 with
      | Throw e => Throw e
      | Normal s0 =>
          Normal {| currentTestGroup := currentTestGroup st;
                    allTests := allTests st ++
                      [ {| gt_resources := tt_resources this;
                           gt_workspaceInfo := tt_workspaceInfo this;
                           gt_target := tt_target this;
                           testName := currentTestGroup st ++ s0;
                           comment := None |} ] |}
      end
  else
    Normal {| currentTestGroup := trim line; allTests := allTests st |}.

(** [xs.forEach(body)] over the state the body updates; a throwing body
    ends the loop. *)
Fixpoint forEach {A S : Type} (body : S -> A -> Completion S) (xs : list A)
    (st : S) : Completion S :=
  match xs with
  | [] => Normal st
  | x :: xs' =>
      match body st x with
      | Normal st' => forEach body xs' st'
      | Throw e => Throw e
      end
  end.

Definition parseGtestList (this : BazelTargetTreeItem) (input : jsstring)
    : Completion (list BazelGTestTreeItem) :=
  match forEach (parseGtestLine this) (split LF input)
          {| currentTestGroup := []; allTests := [] |} with
  | Normal st => Normal (allTests st)
  | Throw e => Throw e
  end.

(** ** The parser as the specification words it *)

(** A sub-test descriptor: the qualified name and the optional comment. *)
Record SubTestDescriptor := {
  qualifiedName : jsstring;
  displayComment : option jsstring;
}.

(** The tree item [parseGtestList] wraps around a descriptor. *)
Definition treeItem (this : BazelTargetTreeItem) (d : SubTestDescriptor)
    : BazelGTestTreeItem :=
  {| gt_resources := tt_resources this;
     gt_workspaceInfo := tt_workspaceInfo this;
     gt_target := tt_target this;
     testName := qualifiedName d;
     comment := displayComment d |}.

(** [s.includes(c)] for one code unit. *)
Definition includes (s : jsstring) (c : N) : bool := existsb (N.eqb c) s.

(** The text before the first [sep], and the text after it when there is
    one. *)
Fixpoint cutFirst (sep : N) (s : jsstring) : jsstring * option jsstring :=
  match s with
  | [] => ([], None)
  | c :: s' =>
      if c =? sep then ([], Some s')
      else let '(b, a) := cutFirst sep s' in (c :: b, a)
  end.

(** The case text of a line: what precedes its first '#', all of the line
    when it has none. *)
Definition caseText (line : jsstring) : jsstring := (cutFirst HASH line).1.

(** Walk the lines with the current group; [caseOf] says what a case line
    yields. *)
Fixpoint walkLines (caseOf : jsstring -> jsstring -> SubTestDescriptor)
    (group : jsstring) (ls : list jsstring) : list SubTestDescriptor :=
  match ls with
  | [] => []
  | l :: ls' =>
      if startsWith l (str "  ") then caseOf group l :: walkLines caseOf group ls'
      else walkLines caseOf (trim l) ls'
  end.

(** The reference algorithm of the specification: the comment is the
    trimmed text after the first '#' whenever the line has a '#'. *)
Definition referenceCase (group line : jsstring) : SubTestDescriptor :=
  let '(b, a) := cutFirst HASH line in
  {| qualifiedName := group ++ trim b; displayComment := trim <$> a |}.

Definition gtestListReference (input : jsstring) : list SubTestDescriptor :=
  walkLines referenceCase [] (split LF input).

(** The reference algorithm with the comment rule of the code: a comment
    only when the line has exactly one '#'. *)
Definition singleHashCase (group line : jsstring) : SubTestDescriptor :=
  let '(b, a) := cutFirst HASH line in
  {| qualifiedName := group ++ trim b;
     displayComment :=
       match a with
       | Some t => if includes t HASH then None else Some (trim t)
       | None => None
       end |}.

Definition gtestListSingleHash (input : jsstring) : list SubTestDescriptor :=
  walkLines singleHashCase [] (split LF input).

(** An example target, for the concrete evaluations below. *)
Definition exampleWorkspace : BazelWorkspaceInfo :=
  {| bazelWorkspacePath := str "/ws"; workspaceFolder := str "ws" |}.

Definition exampleTarget : BazelTargetTreeItem :=
  {| tt_resources := {| iconsPath := str "/icons" |};
     tt_workspaceInfo := exampleWorkspace;
     tt_target := {| rule_name := str "//x:y"; rule_ruleClass := str "cc_test" |} |}.

(** [lines.join("\n")] *)
Fixpoint joinLines (ls : list jsstring) : jsstring :=
  match ls with
  | [] => []
  | [l] => l
  | l :: ls' => l ++ LF :: joinLines ls'
  end.

(** The canonical listing of the specification (testable property 3). *)
Definition canonicalListing : jsstring :=
  joinLines [str "GroupA."; str "  Case1"; str "  Case2  # comment text";
             str "GroupB."; str "  Case3"].

(** ** The heap: command options and their arrays *)

Abbreviation ref := nat.

(** [IBazelCommandOptions]: an object whose [options] and [targets] fields
    refer to [string[]] arrays. *)
Record IBazelCommandOptions := {
  options : ref;
  targets : ref;
  workspaceInfo : BazelWorkspaceInfo;
}.

Record Heap := {
  arrays : list (list jsstring);
  objects : list IBazelCommandOptions;
}.

(** What a command-options object holds at one moment: the contents of its
    arrays, not their identity. *)
Record CommandOptionsValue := {
  v_options : list jsstring;
  v_targets : list jsstring;
  v_workspaceInfo : BazelWorkspaceInfo;
}.

Definition snapshot (h : Heap) (r : ref) : option CommandOptionsValue :=
  match objects h !! r with
  | Some o =>
      match arrays h !! options o, arrays h !! targets o with
      | Some os, Some ts =>
          Some {| v_options := os; v_targets := ts;
                  v_workspaceInfo := workspaceInfo o |}
      | _, _ => None
      end
  | None => None
  end.

(** ** The host: what the commands ask of it, and what they tell it *)

Inductive Verb := build | run | test | coverage | clean.

(** [mode: "test" | "coverage"] *)
Inductive TestMode := mode_test | mode_coverage.

Definition verbOfMode (mode : TestMode) : Verb :=
  match mode with mode_test => test | mode_coverage => coverage end.

(** Modelled from the spec: the task [createBazelTask] returns
    ([src/bazel/tasks.ts] is not among the sources).  Section 4.3: one
    command line built from the verb and from the options as they are at the
    call. *)
Record Task := {
  task_command : Verb;
  task_options : CommandOptionsValue;
}.

(** [new BazelCQuery(executable, workspacePath)] *)
Record BazelCQuery := {
  cq_executable : jsstring;
  cq_workspacePath : jsstring;
}.

(** The [vscode.DebugConfiguration] of the debug-test flow.  [program] is
    [outputs[0]], which is [undefined] for an empty result. *)
Record DebugConfiguration := {
  dc_name : jsstring;
  dc_type : jsstring;
  dc_request : jsstring;
  dc_program : option jsstring;
  dc_args : list jsstring;
  dc_cwd : jsstring;
  dc_breakpointMode : jsstring;
  dc_sourceMap : list (jsstring * jsstring);
  dc_logging_programOutput : bool;
  dc_internalConsoleOptions : jsstring;
  dc_externalConsole : bool;
}.

(** What a quick pick lists: [queryQuickPickTargets({query})] or
    [queryQuickPickPackage({})]. *)
Inductive QuickPickSource :=
  | QuickPickTargets (query : jsstring)
  | QuickPickPackage.

(** The calls into the host, in the order they are made. *)
Inductive Event :=
  | ShowQuickPick (source : QuickPickSource)
  | ExecuteTask (task : Task)
  | QueryOutputs (query : BazelCQuery) (target : jsstring)
      (flags : option (list jsstring))
  | Stat (filename : jsstring)
  | ExecFile (file : jsstring) (args : list jsstring) (cwd : jsstring)
  | StartDebugging (folder : jsstring) (config : DebugConfiguration).

(** [vscode.TaskProcessEndEvent]; [exitCode] may be [undefined]. *)
Record TaskProcessEndEvent := {
  ev_execution : nat;
  ev_exitCode : option Z;
}.

(** What the [onDidEndTaskProcess] callback of the debug-test flow closes
    over. *)
Record DebugTestListener := {
  l_execution : nat;
  l_target : jsstring;
  l_query : BazelCQuery;
  l_commandOptions : ref;
  l_cwd : jsstring;
}.

(** The state the commands run in.  [listeners] holds the callbacks
    registered with [onDidEndTaskProcess], by registration number; a
    disposed one is [None]. *)
Record State := {
  heap : Heap;
  trace : list Event;
  executions : nat;
  listeners : list (option DebugTestListener);
}.

(** ** The command monad: state, and completions that may throw *)

Definition M (A : Type) : Type := State -> Completion A * State.

Definition ret {A} (a : A) : M A := fun s => (Normal a, s).

Definition throw {A} (e : JsError) : M A := fun s => (Throw e, s).

Definition bind {A B} (m : M A) (k : A -> M B) : M B :=
  fun s =>
    match m s with
    | (Normal a, s') => k a s'
    | (Throw e, s') => (Throw e, s')
    end.

Notation "x <- m ;; k" := (bind m (fun x => k))
  (at level 100, m at next level, right associativity).
Notation "m ;;; k" := (bind m (fun _ => k))
  (at level 100, right associativity).

(** [try { m } catch { h }] *)
Definition tryCatch {A} (m : M A) (h : M A) : M A :=
  fun s =>
    match m s with
    | (Normal a, s') => (Normal a, s')
    | (Throw _, s') => h s'
    end.

Definition liftCompletion {A} (c : Completion A) : M A := fun s => (c, s).

Definition emit (e : Event) : M unit :=
  fun s => (Normal tt,
            {| heap := heap s; trace := trace s ++ [e];
               executions := executions s; listeners := listeners s |}).

Definition setHeap (h : Heap) : M unit :=
  fun s => (Normal tt,
            {| heap := h; trace := trace s;
               executions := executions s; listeners := listeners s |}).

Definition getHeap : M Heap := fun s => (Normal (heap s), s).

(** A new array ([[...]], or the result of [map]). *)
Definition newArray (xs : list jsstring) : M ref :=
  h <- getHeap ;;
  setHeap {| arrays := arrays h ++ [xs]; objects := objects h |} ;;;
  ret (length (arrays h)).

(** Reading through a reference that holds nothing is the [TypeError] of a
    member access on [undefined]. *)
Definition readArray (r : ref) : M (list jsstring) :=
  h <- getHeap ;;
  match arrays h !! r with
  | Some xs => ret xs
  | None => throw TypeError
  end.

(** [arr.push(...xs)] *)
Definition pushArray (r : ref) (xs : list jsstring) : M unit :=
  h <- getHeap ;;
  match arrays h !! r with
  | Some old => setHeap {| arrays := <[r := old ++ xs]> (arrays h);
                           objects := objects h |}
  | None => throw TypeError
  end.

(** An object literal [{ options, targets, workspaceInfo }]. *)
Definition newObject (o : IBazelCommandOptions) : M ref :=
  h <- getHeap ;;
  setHeap {| arrays := arrays h; objects := objects h ++ [o] |} ;;;
  ret (length (objects h)).

Definition readObject (r : ref) : M IBazelCommandOptions :=
  h <- getHeap ;;
  match objects h !! r with
  | Some o => ret o
  | None => throw TypeError
  end.

(** [obj.options = a] *)
Definition setOptions (r : ref) (a : ref) : M unit :=
  h <- getHeap ;;
  match objects h !! r with
  | Some o =>
      setHeap {| arrays := arrays h;
                 objects := <[r := {| options := a; targets := targets o;
                                      workspaceInfo := workspaceInfo o |}]>
                              (objects h) |}
  | None => throw TypeError
  end.

(** [IBazelCommandAdapter]: whatever can say which command options it
    stands for.  The method may allocate, or hand out an object it keeps. *)
Record IBazelCommandAdapter := {
  getBazelCommandOptions : M ref;
}.

(** [BazelTargetTreeItem.getBazelCommandOptions] *)
Definition targetItemAdapter (this : BazelTargetTreeItem) : IBazelCommandAdapter :=
  {| getBazelCommandOptions :=
       os <- newArray [] ;;
       ts <- newArray [rule_name (tt_target this)] ;;
       newObject {| options := os; targets := ts;
                    workspaceInfo := tt_workspaceInfo this |} |}.

(** [BazelGTestTreeItem.getBazelCommandOptions] *)
Definition gtestItemAdapter (this : BazelGTestTreeItem) : IBazelCommandAdapter :=
  {| getBazelCommandOptions :=
       os <- newArray [str "--gtest_filter=" ++ testName this] ;;
       ts <- newArray [rule_name (gt_target this)] ;;
       newObject {| options := os; targets := ts;
                    workspaceInfo := gt_workspaceInfo this |} |}.

(** An adapter that hands out the one object it keeps. *)
Definition keptOptionsAdapter (r : ref) : IBazelCommandAdapter :=
  {| getBazelCommandOptions := ret r |}.

(** The answers of the host. *)
Record Host := {
  (** what the user picks in a quick pick; [None] is a cancelled pick *)
  host_pick : QuickPickSource -> option IBazelCommandAdapter;
  (** [BazelCQuery.queryOutputs]: the output paths, or a rejection *)
  host_queryOutputs :
    BazelCQuery -> jsstring -> option (list jsstring) -> Completion (list jsstring);
  (** [execFile]: the standard output, or a rejection *)
  host_execFile : jsstring -> list jsstring -> jsstring -> Completion jsstring;
  (** whether [fs.stat] finds the file *)
  host_stat : jsstring -> bool;
  (** [getDefaultBazelExecutablePath()] *)
  host_bazelExecutablePath : jsstring;
  (** the setting [bazel.extraDebugSourceMappings] *)
  host_extraDebugSourceMappings : list (jsstring * jsstring);
}.

(** A promise that has been created and not awaited; as any object, it is
    truthy whatever it settles to. *)
Inductive Promise (A : Type) := pending (settlesTo : A).
Arguments pending {A} settlesTo.

Definition truthy {A} (p : Promise A) : bool := true.

(** [event.exitCode !== 0] *)
Definition exitCodeNotZero (exitCode : option Z) : bool :=
  match exitCode with
  | Some z => negb (Z.eqb z 0)
  | None => true
  end.

(** [o[k] = v] on an object used as a map: an own key keeps its place. *)
Fixpoint setProperty (k v : jsstring) (o : list (jsstring * jsstring))
    : list (jsstring * jsstring) :=
  match o with
  | [] => [(k, v)]
  | (k', v') :: o' =>
      if bool_decide (k = k') then (k, v) :: o' else (k', v') :: setProperty k v o'
  end.

(** [{ ...base, ...extra }] *)
Definition spread (base extra : list (jsstring * jsstring))
    : list (jsstring * jsstring) :=
  fold_left (fun o kv => setProperty kv.1 kv.2 o) extra base.

Section Commands.
Variable host : Host.

(** *** Calls into the host *)

(** [vscode.window.showQuickPick(source, { canPickMany: false })] *)
Definition showQuickPick (source : QuickPickSource)
    : M (option IBazelCommandAdapter) :=
  emit (ShowQuickPick source) ;;; ret (host_pick host source).

(** Modelled from the spec: [createBazelTask] ([src/bazel/tasks.ts] is not
    among the sources).  Section 4.3: the command is built from the verb,
    the options and the targets as the object holds them at the call. *)
Definition createBazelTask (command : Verb) (commandOptions : ref) : M Task :=
  o <- readObject commandOptions ;;
  os <- readArray (options o) ;;
  ts <- readArray (targets o) ;;
  ret {| task_command := command;
         task_options := {| v_options := os; v_targets := ts;
                            v_workspaceInfo := workspaceInfo o |} |}.

(** [vscode.tasks.executeTask(task)]: submits the task; the result
    identifies this execution. *)
Definition executeTask (task : Task) : M nat :=
  fun s => (Normal (executions s),
            {| heap := heap s; trace := trace s ++ [ExecuteTask task];
               executions := S (executions s); listeners := listeners s |}).

(** [query.queryOutputs(target, flags)] *)
Definition queryOutputs (query : BazelCQuery) (target : jsstring)
    (flags : option (list jsstring)) : M (list jsstring) :=
  emit (QueryOutputs query target flags) ;;;
  liftCompletion (host_queryOutputs host query target flags).

(** [execFile(file, args, { cwd, maxBuffer })] *)
Definition execFile (file : jsstring) (args : list jsstring) (cwd : jsstring)
    : M jsstring :=
  emit (ExecFile file args cwd) ;;;
  liftCompletion (host_execFile host file args cwd).

(** [vscode.debug.startDebugging(folder, config)] *)
Definition startDebugging (folder : jsstring) (config : DebugConfiguration)
    : M unit :=
  emit (StartDebugging folder config).

(** [vscode.tasks.onDidEndTaskProcess(callback)]: the result is the
    registration, which [dispose] ends. *)
Definition onDidEndTaskProcess (l : DebugTestListener) : M nat :=
  fun s => (Normal (length (listeners s)),
            {| heap := heap s; trace := trace s; executions := executions s;
               listeners := listeners s ++ [Some l] |}).

Definition dispose (id : nat) : M unit :=
  fun s => (Normal tt,
            {| heap := heap s; trace := trace s; executions := executions s;
               listeners := <[id := None]> (listeners s) |}).

(** *** [bazel_target_tree_item.ts] *)

(** [fileExists]: an [async] function, so the caller holds a promise. *)
Definition fileExists (filename : jsstring) : M (Promise bool) :=
  emit (Stat filename) ;;; ret (pending (host_stat host filename)).

(** [BazelTargetTreeItem.getChildren]; [None] is the [undefined] of
    running off the end of the function. *)
Definition getChildren (this : BazelTargetTreeItem)
    : M (option (list BazelGTestTreeItem)) :=
  outputs <- queryOutputs
               {| cq_executable := host_bazelExecutablePath host;
                  cq_workspacePath := bazelWorkspacePath (tt_workspaceInfo this) |}
               (rule_name (tt_target this)) None ;;
  match outputs with
  | [output0] =>
      exists_ <- fileExists output0 ;;
      if truthy exists_ then
        tryCatch
          (stdout <- execFile output0 [str "--gtest_list_tests"]
                       (bazelWorkspacePath (tt_workspaceInfo this)) ;;
           tests <- liftCompletion (parseGtestList this stdout) ;;
           ret (Some tests))
          (ret (Some []))
      else ret None
  | _ => ret (Some [])      (* outputs.length !== 1 *)
  end.

(** *** [bazel_wrapper_commands.ts] *)

(** Each command starts the same way: without an adapter it asks the user
    to pick one and, unless the pick is cancelled, calls itself with it.
    That inner call has an adapter, so it runs the rest of the function,
    which the definitions named [...For] hold. *)

Definition bazelBuildTargetFor (adapter : IBazelCommandAdapter) : M unit :=
  commandOptions <- getBazelCommandOptions adapter ;;
  task <- createBazelTask build commandOptions ;;
  _ <- executeTask task ;;
  ret tt.

Definition bazelBuildTarget (adapter : option IBazelCommandAdapter) : M unit :=
  match adapter with
  | None =>
      quickPick <- showQuickPick (QuickPickTargets (str "kind('.* rule', ...)")) ;;
      match quickPick with
      | Some picked => bazelBuildTargetFor picked
      | None => ret tt
      end
  | Some adapter => bazelBuildTargetFor adapter
  end.

Definition buildPackageFor (suffix : jsstring) (adapter : IBazelCommandAdapter)
    : M unit :=
  commandOptions <- getBazelCommandOptions adapter ;;
  o <- readObject commandOptions ;;
  ts <- readArray (targets o) ;;
  mapped <- newArray (map (fun s => s ++ suffix) ts) ;;
  allCommandOptions <- newObject {| options := options o; targets := mapped;
                                    workspaceInfo := workspaceInfo o |} ;;
  task <- createBazelTask build allCommandOptions ;;
  _ <- executeTask task ;;
  ret tt.

Definition buildPackage (suffix : jsstring)
    (adapter : option IBazelCommandAdapter) : M unit :=
  match adapter with
  | None =>
      quickPick <- showQuickPick QuickPickPackage ;;
      match quickPick with
      | Some picked => buildPackageFor suffix picked
      | None => ret tt
      end
  | Some adapter => buildPackageFor suffix adapter
  end.

Definition bazelbuildAll (adapter : option IBazelCommandAdapter) : M unit :=
  buildPackage (str ":all") adapter.

Definition bazelbuildAllRecursive (adapter : option IBazelCommandAdapter)
    : M unit :=
  buildPackage (str "/...") adapter.

Definition bazelRunTargetFor (adapter : IBazelCommandAdapter) : M unit :=
  commandOptions <- getBazelCommandOptions adapter ;;
  task <- createBazelTask run commandOptions ;;
  _ <- executeTask task ;;
  ret tt.

Definition bazelRunTarget (adapter : option IBazelCommandAdapter) : M unit :=
  match adapter with
  | None =>
      quickPick <- showQuickPick (QuickPickTargets (str "kind('.* rule', ...)")) ;;
      match quickPick with
      | Some picked => bazelRunTargetFor picked
      | None => ret tt
      end
  | Some adapter => bazelRunTargetFor adapter
  end.

Definition bazelTestTargetFor (adapter : IBazelCommandAdapter)
    (mode : TestMode) (extraArgs : list jsstring) : M unit :=
  commandOptions <- getBazelCommandOptions adapter ;;
  o <- readObject commandOptions ;;
  os <- readArray (options o) ;;
  mapped <- newArray (map (fun opt => str "--test_arg=" ++ opt) os) ;;
  setOptions commandOptions mapped ;;;
  o' <- readObject commandOptions ;;
  pushArray (options o') extraArgs ;;;
  task <- createBazelTask (verbOfMode mode) commandOptions ;;
  _ <- executeTask task ;;
  ret tt.

(** The inner call is [bazelTestTarget(quickPick, mode)]: no extra
    arguments. *)
Definition bazelTestTarget (adapter : option IBazelCommandAdapter)
    (mode : TestMode) (extraArgs : list jsstring) : M unit :=
  match adapter with
  | None =>
      quickPick <- showQuickPick (QuickPickTargets (str "kind('.*_test rule', ...)")) ;;
      match quickPick with
      | Some picked => bazelTestTargetFor picked mode []
      | None => ret tt
      end
  | Some adapter => bazelTestTargetFor adapter mode extraArgs
  end.

(** The error of a debug request with a wrong number of targets
    ([InvalidInvocation] in the specification). *)
Definition InvalidInvocation : JsError :=
  Error (str "bug: invalid number of targets passed to bazelDebugTestTarget").

Definition debugCompilationMode : list jsstring :=
  [str "--compilation_mode"; str "dbg"].

(** The callback given to [onDidEndTaskProcess], with what it closes
    over.  It runs to its end before anything else does. *)
Definition debugTestCallback (disposable : nat) (l : DebugTestListener)
    (event : TaskProcessEndEvent) : M unit :=
  if Nat.eqb (ev_execution event) (l_execution l) then
    dispose disposable ;;;
    if exitCodeNotZero (ev_exitCode event) then ret tt
    else
      outputs <- queryOutputs (l_query l) (l_target l) (Some debugCompilationMode) ;;
      o <- readObject (l_commandOptions l) ;;
      args <- readArray (options o) ;;
      startDebugging (workspaceFolder (workspaceInfo o))
        {| dc_name := str "Debug Test Target: " ++ l_target l;
           dc_type := str "lldb";
           dc_request := str "launch";
           dc_program := outputs !! 0%nat;
           dc_args := args;
           dc_cwd := l_cwd l;
           dc_breakpointMode := str "file";
           dc_sourceMap :=
             spread [(str "/proc/self/cwd", str "${workspaceFolder}")]
                    (host_extraDebugSourceMappings host);
           dc_logging_programOutput := true;
           dc_internalConsoleOptions := str "neverOpen";
           dc_externalConsole := false |}
  else ret tt.

(** The guard [targets.length != 1] and the read of [targets[0]] are one
    match on the array: only a one-element array passes the guard, and its
    element is the target. *)
Definition bazelDebugTestTargetFor (adapter : IBazelCommandAdapter)
    (extraArgs : list jsstring) : M unit :=
  commandOptions <- getBazelCommandOptions adapter ;;
  o <- readObject commandOptions ;;
  ts <- readArray (targets o) ;;
  match ts with
  | [target] =>
      buildOptions <- newArray (str "--compilation_mode" :: str "dbg" :: extraArgs) ;;
      taskOptions <- newObject {| options := buildOptions; targets := targets o;
                                  workspaceInfo := workspaceInfo o |} ;;
      task <- createBazelTask build taskOptions ;;
      execution <- executeTask task ;;
      _ <- onDidEndTaskProcess
             {| l_execution := execution;
                l_target := target;
                l_query :=
                  {| cq_executable := host_bazelExecutablePath host;
                     cq_workspacePath := bazelWorkspacePath (workspaceInfo o) |};
                l_commandOptions := commandOptions;
                l_cwd := bazelWorkspacePath (workspaceInfo o) |} ;;
      ret tt
  | _ => throw InvalidInvocation      (* targets.length != 1 *)
  end.

(** The inner call is [bazelDebugTestTarget(quickPick)]: no extra
    arguments. *)
Definition bazelDebugTestTarget (adapter : option IBazelCommandAdapter)
    (extraArgs : list jsstring) : M unit :=
  match adapter with
  | None =>
      quickPick <- showQuickPick (QuickPickTargets (str "kind('.*_test rule', ...)")) ;;
      match quickPick with
      | Some picked => bazelDebugTestTargetFor picked []
      | None => ret tt
      end
  | Some adapter => bazelDebugTestTargetFor adapter extraArgs
  end.

Definition testPackageFor (suffix : jsstring) (adapter : IBazelCommandAdapter)
    (mode : TestMode) : M unit :=
  commandOptions <- getBazelCommandOptions adapter ;;
  o <- readObject commandOptions ;;
  ts <- readArray (targets o) ;;
  mapped <- newArray (map (fun s => s ++ suffix) ts) ;;
  allCommandOptions <- newObject {| options := options o; targets := mapped;
                                    workspaceInfo := workspaceInfo o |} ;;
  task <- createBazelTask (verbOfMode mode) allCommandOptions ;;
  _ <- executeTask task ;;
  ret tt.

Definition testPackage (suffix : jsstring)
    (adapter : option IBazelCommandAdapter) (mode : TestMode) : M unit :=
  match adapter with
  | None =>
      quickPick <- showQuickPick QuickPickPackage ;;
      match quickPick with
      | Some picked => testPackageFor suffix picked mode
      | None => ret tt
      end
  | Some adapter => testPackageFor suffix adapter mode
  end.

Definition bazelTestAll (adapter : option IBazelCommandAdapter) : M unit :=
  testPackage (str ":all") adapter mode_test.

Definition bazelTestAllRecursive (adapter : option IBazelCommandAdapter)
    (mode : TestMode) : M unit :=
  testPackage (str "/...") adapter mode.

(** *** The host reports the end of a task's process *)

(** The event goes to every callback still registered.  A callback is an
    [async] function: what it throws rejects a promise nobody reads. *)
Fixpoint notifyListeners (event : TaskProcessEndEvent) (ids : list nat)
    : M unit :=
  match ids with
  | [] => ret tt
  | id :: ids' =>
      fun s =>
        match listeners s !! id with
        | Some (Some l) =>
            (tryCatch (debugTestCallback id l event) (ret tt) ;;;
             notifyListeners event ids') s
        | _ => notifyListeners event ids' s
        end
  end.

Definition endTaskProcess (event : TaskProcessEndEvent) : M unit :=
  fun s => notifyListeners event (seq 0 (length (listeners s))) s.

Fixpoint endTaskProcesses (events : list TaskProcessEndEvent) : M unit :=
  match events with
  | [] => ret tt
  | event :: events' => endTaskProcess event ;;; endTaskProcesses events'
  end.

(** *** [activateWrapperCommands]: the registered test commands *)

Inductive TestCommand :=
  | testTarget | testTargetDbg | testTargetAsan | testTargetDbgAsan
  | testTargetWithCoverage | debugTestTarget | debugTestTargetAsan.

Definition runTestCommand (command : TestCommand)
    (adapter : option IBazelCommandAdapter) : M unit :=
  match command with
  | testTarget => bazelTestTarget adapter mode_test []
  | testTargetDbg =>
      bazelTestTarget adapter mode_test [str "--compilation_mode=dbg"]
  | testTargetAsan =>
      bazelTestTarget adapter mode_test [str "--config=clang-asan"]
  | testTargetDbgAsan =>
      bazelTestTarget adapter mode_test
        [str "--compilation_mode=dbg"; str "--config=clang-asan"]
  | testTargetWithCoverage => bazelTestTarget adapter mode_coverage []
  | debugTestTarget => bazelDebugTestTarget adapter []
  | debugTestTargetAsan => bazelDebugTestTarget adapter [str "--config=clang-asan"]
  end.
End Commands.

(** The options with ["--test_arg="] in front. *)
Definition testArg (opt : jsstring) : jsstring := str "--test_arg=" ++ opt.

(** The value a package command derives from [O]: every target with the
    suffix appended. *)
Definition withSuffix (suffix : jsstring) (O : CommandOptionsValue)
    : CommandOptionsValue :=
  {| v_options := v_options O;
     v_targets := map (fun t => t ++ suffix) (v_targets O);
     v_workspaceInfo := v_workspaceInfo O |}.

(** What C6 says of a package command [run] that submits with [verb], when
    the adapter answered with the object [r] holding [O], in state [s1]:
    the command returns; it submits one task, made from [O] with the suffix
    on every target; the heap grows by one array (the new targets) and one
    object (the new options), so that what was there is as it was; and
    running the command again from the same object submits the same task
    and leaves [O] as it was. *)
Definition derivesNewOptions (run : option IBazelCommandAdapter -> M unit)
    (verb : Verb) (suffix : jsstring) (adapter : IBazelCommandAdapter)
    (s s1 : State) (r : ref) (O : CommandOptionsValue) : Prop :=
  exists s2 derived,
    run (Some adapter) s = (Normal tt, s2)
    /\ trace s2 = trace s1 ++
         [ExecuteTask {| task_command := verb; task_options := withSuffix suffix O |}]
    /\ arrays (heap s2) =
         arrays (heap s1) ++ [map (fun t => t ++ suffix) (v_targets O)]
    /\ objects (heap s2) = objects (heap s1) ++ [derived]
    /\ snapshot (heap s2) (length (objects (heap s1))) = Some (withSuffix suffix O)
    /\ snapshot (heap s2) r = Some O
    /\ exists s3,
         run (Some (keptOptionsAdapter r)) s2 = (Normal tt, s3)
         /\ trace s3 = trace s2 ++
              [ExecuteTask {| task_command := verb;
                              task_options := withSuffix suffix O |}]
         /\ snapshot (heap s3) r = Some O.

(** The callback data of a debug-test flow for the options [O] held at [r],
    with the one target [target], registered in a state where [s1] counts
    the executions. *)
Definition debugListener (host : Host) (r : ref) (O : CommandOptionsValue)
    (target : jsstring) (s1 : State) : DebugTestListener :=
  {| l_execution := executions s1;
     l_target := target;
     l_query :=
       {| cq_executable := host_bazelExecutablePath host;
          cq_workspacePath := bazelWorkspacePath (v_workspaceInfo O) |};
     l_commandOptions := r;
     l_cwd := bazelWorkspacePath (v_workspaceInfo O) |}.

(** The state once the quick pick has been shown. *)
Definition afterQuickPick (source : QuickPickSource) (s : State) : State :=
  (emit (ShowQuickPick source) s).2.

(** The registered command that passes no extra flags. *)
Definition withoutModifiers (command : TestCommand) : TestCommand :=
  match command with
  | testTargetDbg | testTargetAsan | testTargetDbgAsan => testTarget
  | debugTestTargetAsan => debugTestTarget
  | other => other
  end.

(** ** Example data *)

Definition emptyState : State :=
  {| heap := {| arrays := []; objects := [] |}; trace := [];
     executions := 0; listeners := [] |}.

(** A state whose heap holds the options
    [{options: ["--foo"], targets: ["//x:y"]}] as object 0. *)
Definition fooState : State :=
  {| heap := {| arrays := [[str "--foo"]; [str "//x:y"]];
                objects := [ {| options := 0; targets := 1;
                                workspaceInfo := exampleWorkspace |} ] |};
     trace := []; executions := 0; listeners := [] |}.

Definition exampleGTestItem : BazelGTestTreeItem :=
  treeItem exampleTarget
    {| qualifiedName := str "GroupA.Case1"; displayComment := None |}.

(** A host in which the user picks the example sub-test, the query finds one
    artifact and the test binary lists the canonical listing. *)
Definition exampleHost : Host :=
  {| host_pick := fun _ => Some (gtestItemAdapter exampleGTestItem);
     host_queryOutputs := fun _ _ _ => Normal [str "/ws/bazel-bin/x/y"];
     host_execFile := fun _ _ _ => Normal canonicalListing;
     host_stat := fun _ => true;
     host_bazelExecutablePath := str "bazel";
     host_extraDebugSourceMappings := [] |}.

Definition noTargetState : State :=
  {| heap := {| arrays := [[]; []];
                objects := [ {| options := 0; targets := 1;
                                workspaceInfo := exampleWorkspace |} ] |};
     trace := []; executions := 0; listeners := [] |}.

Definition twoTargetsState : State :=
  {| heap := {| arrays := [[]; [str "//x:y"; str "//x:z"]];
                objects := [ {| options := 0; targets := 1;
                                workspaceInfo := exampleWorkspace |} ] |};
     trace := []; executions := 0; listeners := [] |}.

(** ** The rest of the tree items *)

Definition CR : N := 13.      (* "\r" *)
Definition COLON : N := 58.   (* ":" *)

(** [s.lastIndexOf(c)] for one code unit: the greatest index that holds
    [c], or -1. *)
Fixpoint lastIndexOf (s : jsstring) (c : N) : Z :=
  match s with
  | [] => -1
  | x :: s' =>
      let k := lastIndexOf s' c in
      if (0 <=? k)%Z then (k + 1)%Z
      else if x =? c then 0%Z else (-1)%Z
  end.

(** [s.substr(start)]: a negative [start] counts from the end, and both
    ends are clamped to the string. *)
Definition substr (s : jsstring) (start : Z) : jsstring :=
  let size := Z.of_nat (length s) in
  let from := if (start <? 0)%Z then Z.max (size + start) 0 else Z.min start size in
  drop (Z.to_nat from) s.

(** [s.endsWith(p)] *)
Definition endsWith (s p : jsstring) : bool := startsWith (rev s) (rev p).

Module TargetItem.

Definition mightHaveChildren (this : BazelTargetTreeItem) : bool :=
  bool_decide (rule_ruleClass (tt_target this) = str "cc_test").

Definition getLabel (this : BazelTargetTreeItem) : jsstring :=
  let fullPath := rule_name (tt_target this) in
  let colonIndex := lastIndexOf fullPath COLON in
  let targetName := substr fullPath colonIndex in
  targetName ++ str "  (" ++ rule_ruleClass (tt_target this) ++ str ")".

Definition getTooltip (this : BazelTargetTreeItem) : jsstring :=
  rule_name (tt_target this).

Definition getContextValue (this : BazelTargetTreeItem) : jsstring :=
  let ruleClass := rule_ruleClass (tt_target this) in
  if endsWith ruleClass (str "_test") || bool_decide (ruleClass = str "test_suite")
  then str "testRule"
  else str "rule".

End TargetItem.

Module GTestItem.

Definition mightHaveChildren (this : BazelGTestTreeItem) : bool := false.

(** [Promise.resolve([])] *)
Definition getChildren (this : BazelGTestTreeItem) : list BazelGTestTreeItem := [].

Definition getLabel (this : BazelGTestTreeItem) : jsstring := testName this.

(** [this.comment || this.testName]: an omitted comment and the empty
    comment are both falsy. *)
Definition getTooltip (this : BazelGTestTreeItem) : jsstring :=
  match comment this with
  | Some c => if bool_decide (c = []) then testName this else c
  | None => testName this
  end.

Definition getContextValue (this : BazelGTestTreeItem) : jsstring := str "testRule".

End GTestItem.

(** ** Notions the further properties are stated with *)

(** The listing with every line feed preceded by a carriage return. *)
Definition withCarriageReturns (input : jsstring) : jsstring :=
  flat_map (fun c => if c =? LF then [CR; LF] else [c]) input.

(** The lines of that listing, from the lines of the listing: every line
    but the last ends in a carriage return. *)
Fixpoint addCarriageReturns (ls : list jsstring) : list jsstring :=
  match ls with
  | [] => []
  | [l] => [l]
  | l :: ls' => (l ++ [CR]) :: addCarriageReturns ls'
  end.

(** The current group once the lines [ls] have gone by. *)
Definition groupAfter (group : jsstring) (ls : list jsstring) : jsstring :=
  fold_left (fun g l => if startsWith l (str "  ") then g else trim l) ls group.

(** [o[k]] on an object used as a map. *)
Fixpoint getProperty (k : jsstring) (o : list (jsstring * jsstring))
    : option jsstring :=
  match o with
  | [] => None
  | (k', v) :: o' => if bool_decide (k = k') then Some v else getProperty k o'
  end.

(** The value the last entry for [k] gives, for a sequence of assignments. *)
Definition lastAssigned (k : jsstring) (kvs : list (jsstring * jsstring))
    : option jsstring :=
  fold_left (fun found kv => if bool_decide (k = kv.1) then Some kv.2 else found)
    kvs None.

Definition isLaunch (e : Event) : bool :=
  match e with StartDebugging _ _ => true | _ => false end.

Definition isQuery (e : Event) : bool :=
  match e with QueryOutputs _ _ _ => true | _ => false end.

(** How many debug sessions, and how many queries, a trace holds. *)
Definition launches (tr : list Event) : nat := length (List.filter isLaunch tr).

Definition queries (tr : list Event) : nat := length (List.filter isQuery tr).

(** The host with another answer to [fs.stat]. *)
Definition withStat (stat : jsstring -> bool) (host : Host) : Host :=
  {| host_pick := host_pick host;
     host_queryOutputs := host_queryOutputs host;
     host_execFile := host_execFile host;
     host_stat := stat;
     host_bazelExecutablePath := host_bazelExecutablePath host;
     host_extraDebugSourceMappings := host_extraDebugSourceMappings host |}.

(** The debug configuration the debug-test flow launches for the options
    [O] with the one target [target], once the query answered [outputs]. *)
Definition launchConfiguration (host : Host) (O : CommandOptionsValue)
    (target : jsstring) (outputs : list jsstring) : DebugConfiguration :=
  {| dc_name := str "Debug Test Target: " ++ target;
     dc_type := str "lldb";
     dc_request := str "launch";
     dc_program := outputs !! 0%nat;
     dc_args := v_options O;
     dc_cwd := bazelWorkspacePath (v_workspaceInfo O);
     dc_breakpointMode := str "file";
     dc_sourceMap :=
       spread [(str "/proc/self/cwd", str "${workspaceFolder}")]
              (host_extraDebugSourceMappings host);
     dc_logging_programOutput := true;
     dc_internalConsoleOptions := str "neverOpen";
     dc_externalConsole := false |}.

(** A second example target, for a label without a colon. *)
Definition bareTarget : BazelTargetTreeItem :=
  {| tt_resources := {| iconsPath := str "/icons" |};
     tt_workspaceInfo := exampleWorkspace;
     tt_target := {| rule_name := str "foo"; rule_ruleClass := str "cc_test" |} |}.

(** A host whose query is rejected. *)
Definition rejectingHost : Host :=
  {| host_pick := fun _ => None;
     host_queryOutputs := fun _ _ _ => Throw (Rejected (str "query failed"));
     host_execFile := fun _ _ _ => Throw (Rejected (str "not run"));
     host_stat := fun _ => false;
     host_bazelExecutablePath := str "bazel";
     host_extraDebugSourceMappings := [] |}.

(** A host whose query finds no output. *)
Definition emptyOutputsHost : Host :=
  {| host_pick := fun _ => None;
     host_queryOutputs := fun _ _ _ => Normal [];
     host_execFile := fun _ _ _ => Throw (Rejected (str "not run"));
     host_stat := fun _ => false;
     host_bazelExecutablePath := str "bazel";
     host_extraDebugSourceMappings := [] |}.

(** A host whose setting maps "/proc/self/cwd" and "/a". *)
Definition mappingHost : Host :=
  {| host_pick := fun _ => None;
     host_queryOutputs := fun _ _ _ => Normal [str "/out"];
     host_execFile := fun _ _ _ => Throw (Rejected (str "not run"));
     host_stat := fun _ => false;
     host_bazelExecutablePath := str "bazel";
     host_extraDebugSourceMappings :=
       [(str "/proc/self/cwd", str "/src"); (str "/a", str "/b")] |}.

(** * Properties of the parser *)

Section Split.
Variable sep : N.

Lemma split_nonempty (s : jsstring) : split sep s <> [].
Proof.
  destruct s as [|c s]; simpl; [discriminate|].
  destruct (c =? sep); [discriminate|].
  destruct (split sep s); discriminate.
Qed.

Lemma split_cutFirst (s : jsstring) :
  split sep s =
    match cutFirst sep s with
    | (b, None) => [b]
    | (b, Some a) => b :: split sep a
    end.
Proof.
  induction s as [|c s IH]; simpl; [reflexivity|].
  destruct (c =? sep); [reflexivity|].
  rewrite IH. destruct (cutFirst sep s) as [b [a|]]; reflexivity.
Qed.

Lemma cutFirst_includes (s : jsstring) :
  includes s sep = match (cutFirst sep s).2 with Some _ => true | None => false end.
Proof.
  unfold includes. induction s as [|c s IH]; simpl; [reflexivity|].
  rewrite N.eqb_sym. destruct (c =? sep); simpl; [reflexivity|].
  rewrite IH. destruct (cutFirst sep s) as [b [a|]]; reflexivity.
Qed.

Lemma split_without_sep (s : jsstring) :
  includes s sep = false -> split sep s = [s].
Proof.
  unfold includes. induction s as [|c s IH]; simpl; [reflexivity|].
  rewrite N.eqb_sym. destruct (c =? sep); simpl; [discriminate|].
  intros H. rewrite (IH H). reflexivity.
Qed.

Lemma split_with_sep (s : jsstring) :
  includes s sep = true -> (2 <= length (split sep s))%nat.
Proof.
  intros H. rewrite split_cutFirst. rewrite cutFirst_includes in H.
  destruct (cutFirst sep s) as [b [a|]]; simpl in *; [|discriminate].
  pose proof (split_nonempty a). destruct (split sep a); simpl; [congruence|lia].
Qed.

Lemma cutFirst_without_sep (s : jsstring) :
  includes s sep = false -> cutFirst sep s = (s, None).
Proof.
  unfold includes. induction s as [|c s IH]; simpl; [reflexivity|].
  rewrite N.eqb_sym. destruct (c =? sep); simpl; [discriminate|].
  intros H. rewrite (IH H). reflexivity.
Qed.

(** Splitting what [join] glued gives the pieces back. *)
Lemma split_app_sep (l rest : jsstring) :
  includes l sep = false -> split sep (l ++ sep :: rest) = l :: split sep rest.
Proof.
  unfold includes. induction l as [|c l IH]; simpl.
  - rewrite N.eqb_refl. reflexivity.
  - rewrite N.eqb_sym. destruct (c =? sep); simpl; [discriminate|].
    intros H. rewrite (IH H). reflexivity.
Qed.
End Split.

Lemma split_joinLines (ls : list jsstring) :
  ls <> [] -> Forall (fun l => includes l LF = false) ls ->
  split LF (joinLines ls) = ls.
Proof.
  induction ls as [|l ls IH]; [congruence|].
  intros _ Hall. inversion Hall as [|? ? Hl Hls]; subst.
  destruct ls as [|l' ls].
  - simpl. apply split_without_sep, Hl.
  - change (joinLines (l :: l' :: ls)) with (l ++ LF :: joinLines (l' :: ls)).
    rewrite split_app_sep by exact Hl. rewrite IH; [reflexivity|discriminate|exact Hls].
Qed.

(** What the callback does on a case line, in terms of the first '#'. *)
Lemma parseGtestLine_case this st line :
  startsWith line (str "  ") = true ->
  parseGtestLine this st line =
    Normal {| currentTestGroup := currentTestGroup st;
              allTests := allTests st ++
                [treeItem this (singleHashCase (currentTestGroup st) line)] |}.
Proof.
  intros Hcase. unfold parseGtestLine, singleHashCase. rewrite Hcase.
  rewrite (split_cutFirst HASH line).
  destruct (cutFirst HASH line) as [b [a|]]; [|reflexivity].
  destruct (includes a HASH) eqn:Ha.
  - pose proof (split_with_sep HASH a Ha) as Hlen.
    replace (length (b :: split HASH a) =? 2)%nat with false
      by (symmetry; apply Nat.eqb_neq; simpl; lia).
    reflexivity.
  - rewrite (split_without_sep HASH a Ha). reflexivity.
Qed.

Lemma parseGtestLine_header this st line :
  startsWith line (str "  ") = false ->
  parseGtestLine this st line =
    Normal {| currentTestGroup := trim line; allTests := allTests st |}.
Proof. intros H. unfold parseGtestLine. rewrite H. reflexivity. Qed.

(** The loop never throws, and appends what the walk lists. *)
Lemma forEach_parseGtestLine this ls st :
  exists g,
    forEach (parseGtestLine this) ls st =
      Normal {| currentTestGroup := g;
                allTests := allTests st ++
                  map (treeItem this) (walkLines singleHashCase (currentTestGroup st) ls) |}.
Proof.
  revert st. induction ls as [|l ls IH]; intros st; simpl.
  - exists (currentTestGroup st). rewrite app_nil_r. destruct st; reflexivity.
  - destruct (startsWith l (str "  ")) eqn:Hl.
    + rewrite parseGtestLine_case by exact Hl.
      destruct (IH {| currentTestGroup := currentTestGroup st;
                      allTests := allTests st ++
                        [treeItem this (singleHashCase (currentTestGroup st) l)] |})
        as [g Hg].
      exists g. rewrite Hg. simpl. rewrite <- app_assoc. reflexivity.
    + rewrite parseGtestLine_header by exact Hl.
      destruct (IH {| currentTestGroup := trim l; allTests := allTests st |}) as [g Hg].
      exists g. rewrite Hg. reflexivity.
Qed.

Lemma parseGtestList_walk this input :
  parseGtestList this input =
    Normal (map (treeItem this) (walkLines singleHashCase [] (split LF input))).
Proof.
  unfold parseGtestList.
  destruct (forEach_parseGtestLine this (split LF input)
              {| currentTestGroup := []; allTests := [] |}) as [g Hg].
  rewrite Hg. reflexivity.
Qed.

Example parseGtestList_canonical :
  parseGtestList exampleTarget canonicalListing =
    Normal (map (treeItem exampleTarget)
      [ {| qualifiedName := str "GroupA.Case1"; displayComment := None |};
        {| qualifiedName := str "GroupA.Case2";
           displayComment := Some (str "comment text") |};
        {| qualifiedName := str "GroupB.Case3"; displayComment := None |} ]).
Proof. vm_compute. reflexivity. Qed.

(** ** C1: the parser against the reference algorithm *)

(** C1, as stated, fails on a case line with two '#': the code splits it
    into three pieces and gives the descriptor no comment, where the
    reference algorithm takes everything after the first '#'. *)
Lemma parseGtestList_two_hashes_differs :
  parseGtestList exampleTarget (str "  Case # a # b") =
    Normal [treeItem exampleTarget
              {| qualifiedName := str "Case"; displayComment := None |}]
  /\ gtestListReference (str "  Case # a # b") =
       [ {| qualifiedName := str "Case"; displayComment := Some (str "a # b") |} ]
  /\ parseGtestList exampleTarget (str "  Case # a # b") <>
       Normal (map (treeItem exampleTarget)
                 (gtestListReference (str "  Case # a # b"))).
Proof.
  split; [vm_compute; reflexivity|].
  split; [vm_compute; reflexivity|].
  vm_compute. discriminate.
Qed.

(** C1 (amended): for every input text, [parseGtestList] equals the
    reference algorithm in which a case line carries a comment only when it
    holds exactly one '#'.  The input is split into lines; a line that does
    not start with two spaces sets the current group to its trimmed text and
    yields nothing; a line that starts with two spaces yields one
    descriptor, named by the current group followed by the trimmed text
    before the first '#', with the trimmed text after the '#' as its
    comment when that text holds no further '#', and no comment otherwise;
    the descriptors come in the order of the case lines. *)
Theorem parseGtestList_refines_single_hash_reference
    (this : BazelTargetTreeItem) (input : jsstring) :
  parseGtestList this input =
    Normal (map (treeItem this) (gtestListSingleHash input)).
Proof.
  unfold parseGtestList, gtestListSingleHash.
  destruct (forEach_parseGtestLine this (split LF input)
              {| currentTestGroup := []; allTests := [] |}) as [group Hloop].
  rewrite Hloop. simpl. reflexivity.
Qed.

(** On a listing whose case lines hold at most one '#' each, the two
    reference algorithms agree. *)
Lemma referenceCase_singleHashCase group line :
  (forall t, (cutFirst HASH line).2 = Some t -> includes t HASH = false) ->
  singleHashCase group line = referenceCase group line.
Proof.
  unfold singleHashCase, referenceCase.
  destruct (cutFirst HASH line) as [b [a|]]; simpl; intros H; [|reflexivity].
  rewrite (H a eq_refl). reflexivity.
Qed.

(** ** C8: the parser never fails *)

Lemma walkLines_cases caseOf group (cases rest : list jsstring) :
  Forall (fun l => startsWith l (str "  ") = true) cases ->
  walkLines caseOf group (cases ++ rest) =
    map (caseOf group) cases ++ walkLines caseOf group rest.
Proof.
  induction 1 as [|l ls Hl _ IH]; simpl; [reflexivity|].
  rewrite Hl, IH. reflexivity.
Qed.

Lemma singleHashCase_name group line :
  qualifiedName (singleHashCase group line) = group ++ trim (caseText line).
Proof.
  unfold singleHashCase, caseText.
  destruct (cutFirst HASH line) as [b a]; reflexivity.
Qed.

Lemma caseText_without_hash line :
  includes line HASH = false -> caseText line = line.
Proof. intros H. unfold caseText. rewrite cutFirst_without_sep by exact H. reflexivity. Qed.

(** C8: [parseGtestList] returns on every input and never throws; the empty
    input yields the empty sequence; and case lines that come before any
    group header yield descriptors whose names are their trimmed case text
    (the text before the first '#', the whole line when it has none), with
    nothing in front of it. *)
Theorem parseGtestList_never_fails (this : BazelTargetTreeItem) :
  parseGtestList this [] = Normal []
  /\ (forall input, exists items, parseGtestList this input = Normal items)
  /\ (forall input cases rest,
        split LF input = cases ++ rest ->
        Forall (fun l => startsWith l (str "  ") = true) cases ->
        exists items,
          parseGtestList this input = Normal items
          /\ map testName (take (length cases) items)
               = map (fun l => trim (caseText l)) cases
          /\ (forall l, In l cases -> includes l HASH = false ->
                trim (caseText l) = trim l)).
Proof.
  split; [reflexivity|].
  split.
  - intros input. eexists. apply parseGtestList_walk.
  - intros input cases rest Hsplit Hcases.
    eexists. split; [apply parseGtestList_walk|]. split.
    + rewrite Hsplit, walkLines_cases by exact Hcases.
      rewrite map_app, take_app_length' by (rewrite !length_map; reflexivity).
      rewrite !map_map. apply map_ext. intros l. simpl.
      apply singleHashCase_name.
    + intros l _ Hl. rewrite caseText_without_hash by exact Hl. reflexivity.
Qed.

(** A case line first, then a group and its case. *)
Lemma parseGtestList_never_fails_witness :
  exists items,
    parseGtestList exampleTarget (joinLines [str "  Case1 # c"; str "G."; str "  Case2"])
      = Normal items
    /\ map testName (take 1 items) = [str "Case1"].
Proof.
  destruct (parseGtestList_never_fails exampleTarget) as (_ & _ & H).
  destruct (H (joinLines [str "  Case1 # c"; str "G."; str "  Case2"])
              [str "  Case1 # c"] [str "G."; str "  Case2"])
    as (items & Hitems & Hnames & _).
  - vm_compute. reflexivity.
  - repeat constructor.
  - exists items. split; [exact Hitems|exact Hnames].
Defined.

(** * Properties of the commands *)

Lemma bind_normal {A B} (m : M A) (k : A -> M B) s a s' :
  m s = (Normal a, s') -> bind m k s = k a s'.
Proof. intros H. unfold bind. rewrite H. reflexivity. Qed.

Lemma bind_throw {A B} (m : M A) (k : A -> M B) s e s' :
  m s = (Throw e, s') -> bind m k s = (Throw e, s').
Proof. intros H. unfold bind. rewrite H. reflexivity. Qed.

Lemma readObject_normal r s o :
  objects (heap s) !! r = Some o -> readObject r s = (Normal o, s).
Proof. intros H. unfold readObject, bind, getHeap. rewrite H. reflexivity. Qed.

Lemma readArray_normal r s xs :
  arrays (heap s) !! r = Some xs -> readArray r s = (Normal xs, s).
Proof. intros H. unfold readArray, bind, getHeap. rewrite H. reflexivity. Qed.

Lemma createBazelTask_normal command r s O :
  snapshot (heap s) r = Some O ->
  createBazelTask command r s =
    (Normal {| task_command := command; task_options := O |}, s).
Proof.
  unfold snapshot, createBazelTask. intros H.
  destruct (objects (heap s) !! r) as [o|] eqn:Ho; [|discriminate].
  destruct (arrays (heap s) !! options o) as [os|] eqn:Hos; [|discriminate].
  destruct (arrays (heap s) !! targets o) as [ts|] eqn:Hts; [|discriminate].
  injection H as <-.
  rewrite (bind_normal _ _ _ _ _ (readObject_normal _ _ _ Ho)).
  rewrite (bind_normal _ _ _ _ _ (readArray_normal _ _ _ Hos)).
  rewrite (bind_normal _ _ _ _ _ (readArray_normal _ _ _ Hts)).
  reflexivity.
Qed.

(** The parts of a snapshot. *)
Lemma snapshot_Some h r O :
  snapshot h r = Some O ->
  exists o,
    objects h !! r = Some o
    /\ arrays h !! options o = Some (v_options O)
    /\ arrays h !! targets o = Some (v_targets O)
    /\ workspaceInfo o = v_workspaceInfo O.
Proof.
  unfold snapshot. intros H.
  destruct (objects h !! r) as [o|]; [|discriminate].
  destruct (arrays h !! options o) as [os|] eqn:Hos; [|discriminate].
  destruct (arrays h !! targets o) as [ts|] eqn:Hts; [|discriminate].
  injection H as <-. exists o. simpl. rewrite Hos, Hts. auto.
Qed.

Lemma snapshot_intro h r o os ts :
  objects h !! r = Some o ->
  arrays h !! options o = Some os ->
  arrays h !! targets o = Some ts ->
  snapshot h r =
    Some {| v_options := os; v_targets := ts; v_workspaceInfo := workspaceInfo o |}.
Proof. intros Ho Hos Hts. unfold snapshot. rewrite Ho, Hos, Hts. reflexivity. Qed.

(** ** C2: test and coverage wrap the options, then append the extra flags *)

Lemma bazelTestTargetFor_run adapter mode extraArgs s s1 r O :
  getBazelCommandOptions adapter s = (Normal r, s1) ->
  snapshot (heap s1) r = Some O ->
  exists o,
    objects (heap s1) !! r = Some o /\
    bazelTestTargetFor adapter mode extraArgs s =
      (Normal tt,
       {| heap :=
            {| arrays := arrays (heap s1) ++ [map testArg (v_options O) ++ extraArgs];
               objects := <[r := {| options := length (arrays (heap s1));
                                    targets := targets o;
                                    workspaceInfo := workspaceInfo o |}]>
                            (objects (heap s1)) |};
          trace := trace s1 ++
            [ExecuteTask
               {| task_command := verbOfMode mode;
                  task_options :=
                    {| v_options := map testArg (v_options O) ++ extraArgs;
                       v_targets := v_targets O;
                       v_workspaceInfo := v_workspaceInfo O |} |}];
          executions := S (executions s1);
          listeners := listeners s1 |}).
Proof.
  intros Hadapter Hsnap.
  destruct (snapshot_Some _ _ _ Hsnap) as (o & Ho & Hos & Hts & Hws).
  exists o. split; [exact Ho|].
  unfold bazelTestTargetFor.
  rewrite (bind_normal _ _ _ _ _ Hadapter).
  rewrite (bind_normal _ _ _ _ _ (readObject_normal _ _ _ Ho)).
  rewrite (bind_normal _ _ _ _ _ (readArray_normal _ _ _ Hos)).
  destruct s1 as [[arrs objs] tr ex ls]. simpl in *.
  assert (Hr : (r < length objs)%nat) by (eapply lookup_lt_Some; eassumption).
  assert (Ht : (targets o < length arrs)%nat) by (eapply lookup_lt_Some; eassumption).
  unfold bind at 1. simpl.
  unfold bind at 1. unfold setOptions at 1. unfold bind at 1. simpl. rewrite Ho. simpl.
  erewrite bind_normal; cycle 1.
  { apply readObject_normal. simpl. apply list_lookup_insert_eq. exact Hr. }
  simpl. unfold bind at 1. unfold pushArray at 1. unfold bind at 1. simpl.
  rewrite lookup_app_r by lia. rewrite Nat.sub_diag. simpl.
  rewrite insert_app_r_alt by lia. rewrite Nat.sub_diag. simpl.
  erewrite bind_normal; cycle 1.
  { apply createBazelTask_normal. eapply snapshot_intro; simpl.
    - apply list_lookup_insert_eq. exact Hr.
    - simpl. rewrite lookup_app_r by lia. rewrite Nat.sub_diag. reflexivity.
    - simpl. rewrite lookup_app_l by lia. exact Hts. }
  simpl. rewrite Hws. reflexivity.
Qed.

(** C2: for every command-options value [O] the adapter stands for, every
    mode (test or coverage) and every sequence of extra flags, the task that
    [bazelTestTarget] submits has as its options every option of [O]
    prefixed with "--test_arg=", in order, followed by the extra flags as
    they are; the targets and the workspace are those of [O]. *)
Theorem bazelTestTarget_wraps_then_appends
    (host : Host) (adapter : IBazelCommandAdapter) (mode : TestMode)
    (extraArgs : list jsstring) (s s1 : State) (r : ref)
    (O : CommandOptionsValue) :
  getBazelCommandOptions adapter s = (Normal r, s1) ->
  snapshot (heap s1) r = Some O ->
  exists s2,
    bazelTestTarget host (Some adapter) mode extraArgs s = (Normal tt, s2)
    /\ trace s2 = trace s1 ++
         [ExecuteTask
            {| task_command := verbOfMode mode;
               task_options :=
                 {| v_options :=
                      map (fun o => str "--test_arg=" ++ o) (v_options O) ++ extraArgs;
                    v_targets := v_targets O;
                    v_workspaceInfo := v_workspaceInfo O |} |}].
Proof.
  intros Hadapter Hsnap.
  destruct (bazelTestTargetFor_run adapter mode extraArgs s s1 r O Hadapter Hsnap)
    as (o & _ & Hrun).
  eexists. split; [exact Hrun|reflexivity].
Qed.

(** The second testable property of the specification. *)
Lemma bazelTestTarget_wraps_then_appends_witness :
  exists s2,
    bazelTestTarget exampleHost (Some (keptOptionsAdapter 0)) mode_test
      [str "--config=clang-asan"] fooState = (Normal tt, s2)
    /\ trace s2 =
         [ExecuteTask
            {| task_command := test;
               task_options :=
                 {| v_options := [str "--test_arg=--foo"; str "--config=clang-asan"];
                    v_targets := [str "//x:y"];
                    v_workspaceInfo := exampleWorkspace |} |}].
Proof.
  exact (bazelTestTarget_wraps_then_appends exampleHost (keptOptionsAdapter 0)
           mode_test [str "--config=clang-asan"] fooState fooState 0%nat
           {| v_options := [str "--foo"]; v_targets := [str "//x:y"];
              v_workspaceInfo := exampleWorkspace |}
           eq_refl eq_refl).
Defined.

(** ** C6: package-level resolution derives a new options object *)

(** What the package commands derive from [O]. *)
Lemma packageFor_run suffix adapter s s1 r O :
  getBazelCommandOptions adapter s = (Normal r, s1) ->
  snapshot (heap s1) r = Some O ->
  exists o,
    objects (heap s1) !! r = Some o /\
    forall verb,
      (commandOptions <- getBazelCommandOptions adapter ;;
       o <- readObject commandOptions ;;
       ts <- readArray (targets o) ;;
       mapped <- newArray (map (fun t => t ++ suffix) ts) ;;
       allCommandOptions <- newObject {| options := options o; targets := mapped;
                                         workspaceInfo := workspaceInfo o |} ;;
       task <- createBazelTask verb allCommandOptions ;;
       _ <- executeTask task ;;
       ret tt) s =
      (Normal tt,
       {| heap :=
            {| arrays := arrays (heap s1) ++ [map (fun t => t ++ suffix) (v_targets O)];
               objects := objects (heap s1) ++
                 [ {| options := options o;
                      targets := length (arrays (heap s1));
                      workspaceInfo := workspaceInfo o |} ] |};
          trace := trace s1 ++
            [ExecuteTask
               {| task_command := verb;
                  task_options := withSuffix suffix O |}];
          executions := S (executions s1);
          listeners := listeners s1 |}).
Proof.
  intros Hadapter Hsnap.
  destruct (snapshot_Some _ _ _ Hsnap) as (o & Ho & Hos & Hts & Hws).
  exists o. split; [exact Ho|]. intros verb.
  rewrite (bind_normal _ _ _ _ _ Hadapter).
  rewrite (bind_normal _ _ _ _ _ (readObject_normal _ _ _ Ho)).
  rewrite (bind_normal _ _ _ _ _ (readArray_normal _ _ _ Hts)).
  destruct s1 as [[arrs objs] tr ex ls]. simpl in *.
  assert (Hopt : (options o < length arrs)%nat) by (eapply lookup_lt_Some; eassumption).
  unfold bind at 1. simpl. unfold bind at 1. simpl.
  erewrite bind_normal; cycle 1.
  { apply createBazelTask_normal. eapply snapshot_intro; simpl.
    - rewrite lookup_app_r by lia. rewrite Nat.sub_diag. reflexivity.
    - simpl. rewrite lookup_app_l by lia. exact Hos.
    - simpl. rewrite lookup_app_r by lia. rewrite Nat.sub_diag. reflexivity. }
  simpl. unfold withSuffix. rewrite Hws. reflexivity.
Qed.

(** Objects and arrays that exist stay as they are when the heap only
    grows. *)
Lemma snapshot_grow arrs objs arrs' objs' r O :
  snapshot {| arrays := arrs; objects := objs |} r = Some O ->
  snapshot {| arrays := arrs ++ arrs'; objects := objs ++ objs' |} r = Some O.
Proof.
  intros H. destruct (snapshot_Some _ _ _ H) as (o & Ho & Hos & Hts & Hws).
  simpl in *. unfold snapshot. simpl.
  rewrite (lookup_app_l_Some _ _ _ _ Ho).
  rewrite (lookup_app_l_Some _ _ _ _ Hos), (lookup_app_l_Some _ _ _ _ Hts).
  rewrite Hws. destruct O; reflexivity.
Qed.

(** C6: for every command-options value [O] and every suffix (":all" and
    "/..." among them), [buildPackage] and [testPackage] submit a task made
    from a new options object whose targets are those of [O], each with the
    suffix appended, and whose options and workspace are those of [O]; the
    heap only grows by that object and its targets array, so [O] is as it
    was; and resolving a second time from the same [O] submits the same
    task. *)
Theorem package_resolution_derives_new_options
    (host : Host) (adapter : IBazelCommandAdapter) (suffix : jsstring)
    (mode : TestMode) (s s1 : State) (r : ref) (O : CommandOptionsValue) :
  getBazelCommandOptions adapter s = (Normal r, s1) ->
  snapshot (heap s1) r = Some O ->
  derivesNewOptions (buildPackage host suffix) build suffix adapter s s1 r O
  /\ derivesNewOptions (fun a => testPackage host suffix a mode) (verbOfMode mode)
       suffix adapter s s1 r O.
Proof.
  intros Hadapter Hsnap.
  destruct (packageFor_run suffix adapter s s1 r O Hadapter Hsnap) as (o & Ho & H1).
  assert (Hsnap2 : snapshot
            {| arrays := arrays (heap s1) ++ [map (fun t => t ++ suffix) (v_targets O)];
               objects := objects (heap s1) ++
                 [ {| options := options o; targets := length (arrays (heap s1));
                      workspaceInfo := workspaceInfo o |} ] |} r = Some O).
  { apply snapshot_grow. destruct s1 as [[arrs objs] tr ex ls]. exact Hsnap. }
  assert (Hnew : snapshot
            {| arrays := arrays (heap s1) ++ [map (fun t => t ++ suffix) (v_targets O)];
               objects := objects (heap s1) ++
                 [ {| options := options o; targets := length (arrays (heap s1));
                      workspaceInfo := workspaceInfo o |} ] |}
            (length (objects (heap s1))) = Some (withSuffix suffix O)).
  { destruct (snapshot_Some _ _ _ Hsnap) as (o' & Ho' & Hos & Hts & Hws).
    assert (o' = o) by congruence. subst o'.
    unfold snapshot. simpl.
    rewrite lookup_app_r by lia. rewrite Nat.sub_diag. simpl.
    rewrite (lookup_app_l_Some _ _ _ _ Hos).
    rewrite lookup_app_r by lia. rewrite Nat.sub_diag. simpl.
    unfold withSuffix. rewrite Hws. reflexivity. }
  assert (Hboth : forall run verb,
            (forall a s0, run (Some a) s0 =
               (commandOptions <- getBazelCommandOptions a ;;
                o <- readObject commandOptions ;;
                ts <- readArray (targets o) ;;
                mapped <- newArray (map (fun t => t ++ suffix) ts) ;;
                allCommandOptions <- newObject
                  {| options := options o; targets := mapped;
                     workspaceInfo := workspaceInfo o |} ;;
                task <- createBazelTask verb allCommandOptions ;;
                _ <- executeTask task ;;
                ret tt) s0) ->
            derivesNewOptions run verb suffix adapter s s1 r O).
  { intros run verb Hrun. specialize (H1 verb).
    set (s2 := {| heap := _; trace := _; executions := _; listeners := _ |}) in H1.
    destruct (packageFor_run suffix (keptOptionsAdapter r) s2 s2 r O eq_refl Hsnap2)
      as (o2 & Ho2 & H2).
    specialize (H2 verb).
    exists s2. eexists. split; [rewrite Hrun; exact H1|].
    split; [reflexivity|]. split; [reflexivity|]. split; [reflexivity|].
    split; [exact Hnew|]. split; [exact Hsnap2|].
    eexists. split; [rewrite Hrun; exact H2|].
    split; [reflexivity|]. simpl. apply snapshot_grow. exact Hsnap2. }
  split; apply Hboth; reflexivity.
Qed.

(** "Build all" twice from the options of [fooState]. *)
Lemma package_resolution_derives_new_options_witness :
  exists s2 s3,
    bazelbuildAll exampleHost (Some (keptOptionsAdapter 0)) fooState = (Normal tt, s2)
    /\ snapshot (heap s2) 0 = snapshot (heap fooState) 0
    /\ bazelbuildAll exampleHost (Some (keptOptionsAdapter 0)) s2 = (Normal tt, s3)
    /\ trace s3 =
         [ExecuteTask
            {| task_command := build;
               task_options :=
                 {| v_options := [str "--foo"]; v_targets := [str "//x:y:all"];
                    v_workspaceInfo := exampleWorkspace |} |};
          ExecuteTask
            {| task_command := build;
               task_options :=
                 {| v_options := [str "--foo"]; v_targets := [str "//x:y:all"];
                    v_workspaceInfo := exampleWorkspace |} |}].
Proof.
  destruct (package_resolution_derives_new_options exampleHost (keptOptionsAdapter 0)
              (str ":all") mode_test fooState fooState 0%nat
              {| v_options := [str "--foo"]; v_targets := [str "//x:y"];
                 v_workspaceInfo := exampleWorkspace |} eq_refl eq_refl)
    as [(s2 & derived & Hrun & Htrace & _ & _ & _ & Hsame & s3 & Hrun' & Htrace' & _) _].
  exists s2, s3. split; [exact Hrun|]. split; [exact Hsame|].
  split; [exact Hrun'|]. rewrite Htrace', Htrace. reflexivity.
Defined.

(** ** C3: the target-count guard of the debug-test flow *)

(** C3: when the command options of the adapter hold a number of targets
    other than one, [bazelDebugTestTarget] throws the invalid-number-of-
    targets error and leaves the state as the adapter left it: no task is
    created or submitted, no query is made, no callback is registered. *)
Theorem bazelDebugTestTarget_target_count_guard
    (host : Host) (adapter : IBazelCommandAdapter) (extraArgs : list jsstring)
    (s s1 : State) (r : ref) (O : CommandOptionsValue) :
  getBazelCommandOptions adapter s = (Normal r, s1) ->
  snapshot (heap s1) r = Some O ->
  length (v_targets O) <> 1%nat ->
  bazelDebugTestTarget host (Some adapter) extraArgs s = (Throw InvalidInvocation, s1).
Proof.
  intros Hadapter Hsnap Hlen.
  destruct (snapshot_Some _ _ _ Hsnap) as (o & Ho & Hos & Hts & Hws).
  unfold bazelDebugTestTarget, bazelDebugTestTargetFor.
  rewrite (bind_normal _ _ _ _ _ Hadapter).
  rewrite (bind_normal _ _ _ _ _ (readObject_normal _ _ _ Ho)).
  rewrite (bind_normal _ _ _ _ _ (readArray_normal _ _ _ Hts)).
  destruct (v_targets O) as [|t [|t' ts]]; simpl in Hlen; try reflexivity.
  congruence.
Qed.

(** No target at all, and two targets. *)
Lemma bazelDebugTestTarget_target_count_guard_witness :
  bazelDebugTestTarget exampleHost (Some (keptOptionsAdapter 0)) [] noTargetState
    = (Throw InvalidInvocation, noTargetState)
  /\ bazelDebugTestTarget exampleHost (Some (keptOptionsAdapter 0)) [] twoTargetsState
    = (Throw InvalidInvocation, twoTargetsState).
Proof.
  split.
  - apply (bazelDebugTestTarget_target_count_guard exampleHost (keptOptionsAdapter 0)
             [] noTargetState noTargetState 0%nat
             {| v_options := []; v_targets := [];
                v_workspaceInfo := exampleWorkspace |} eq_refl eq_refl).
    simpl. lia.
  - apply (bazelDebugTestTarget_target_count_guard exampleHost (keptOptionsAdapter 0)
             [] twoTargetsState twoTargetsState 0%nat
             {| v_options := []; v_targets := [str "//x:y"; str "//x:z"];
                v_workspaceInfo := exampleWorkspace |} eq_refl eq_refl).
    simpl. lia.
Defined.

(** ** The debug-test flow with one target *)

(** The callback the flow registers for the options held at [r]. *)
Lemma bazelDebugTestTargetFor_run host adapter extraArgs s s1 r O target :
  getBazelCommandOptions adapter s = (Normal r, s1) ->
  snapshot (heap s1) r = Some O ->
  v_targets O = [target] ->
  exists o,
    objects (heap s1) !! r = Some o /\
    bazelDebugTestTargetFor host adapter extraArgs s =
      (Normal tt,
       {| heap :=
            {| arrays := arrays (heap s1) ++ [debugCompilationMode ++ extraArgs];
               objects := objects (heap s1) ++
                 [ {| options := length (arrays (heap s1));
                      targets := targets o;
                      workspaceInfo := workspaceInfo o |} ] |};
          trace := trace s1 ++
            [ExecuteTask
               {| task_command := build;
                  task_options :=
                    {| v_options := debugCompilationMode ++ extraArgs;
                       v_targets := [target];
                       v_workspaceInfo := v_workspaceInfo O |} |}];
          executions := S (executions s1);
          listeners := listeners s1 ++ [Some (debugListener host r O target s1)] |}).
Proof.
  intros Hadapter Hsnap Htarget.
  destruct (snapshot_Some _ _ _ Hsnap) as (o & Ho & Hos & Hts & Hws).
  exists o. split; [exact Ho|].
  unfold bazelDebugTestTargetFor.
  rewrite (bind_normal _ _ _ _ _ Hadapter).
  rewrite (bind_normal _ _ _ _ _ (readObject_normal _ _ _ Ho)).
  rewrite (bind_normal _ _ _ _ _ (readArray_normal _ _ _ Hts)).
  rewrite Htarget in *.
  destruct s1 as [[arrs objs] tr ex ls]. simpl in *.
  assert (Ht : (targets o < length arrs)%nat) by (eapply lookup_lt_Some; eassumption).
  unfold bind at 1. simpl. unfold bind at 1. simpl.
  erewrite bind_normal; cycle 1.
  { apply createBazelTask_normal. eapply snapshot_intro; simpl.
    - rewrite lookup_app_r by lia. rewrite Nat.sub_diag. reflexivity.
    - simpl. rewrite lookup_app_r by lia. rewrite Nat.sub_diag. reflexivity.
    - simpl. rewrite lookup_app_l by lia. exact Hts. }
  simpl. unfold debugListener. simpl. rewrite Hws. reflexivity.
Qed.

(** ** C4: a failed build ends the debug-test flow *)

Section OneListener.
Variable host : Host.
Variables (h : Heap) (tr : list Event) (ex : nat) (l : DebugTestListener).

(** An event of another execution leaves the callback waiting. *)
Lemma endTaskProcess_other event :
  ev_execution event <> l_execution l ->
  endTaskProcess host event
    {| heap := h; trace := tr; executions := ex; listeners := [Some l] |}
  = (Normal tt,
     {| heap := h; trace := tr; executions := ex; listeners := [Some l] |}).
Proof.
  intros Hne. unfold endTaskProcess. simpl.
  unfold bind, tryCatch, debugTestCallback.
  apply Nat.eqb_neq in Hne. rewrite Hne. reflexivity.
Qed.

(** The event of the awaited execution with a non-zero exit code disposes
    of the callback and does nothing else. *)
Lemma endTaskProcess_failed event :
  ev_execution event = l_execution l ->
  ev_exitCode event <> Some 0%Z ->
  endTaskProcess host event
    {| heap := h; trace := tr; executions := ex; listeners := [Some l] |}
  = (Normal tt,
     {| heap := h; trace := tr; executions := ex; listeners := [None] |}).
Proof.
  intros Heq Hcode. unfold endTaskProcess. simpl.
  unfold bind, tryCatch, debugTestCallback.
  apply Nat.eqb_eq in Heq. rewrite Heq. unfold bind. simpl.
  assert (Hnz : exitCodeNotZero (ev_exitCode event) = true).
  { destruct (ev_exitCode event) as [z|]; simpl; [|reflexivity].
    apply negb_true_iff, Z.eqb_neq. congruence. }
  rewrite Hnz. reflexivity.
Qed.

(** Once disposed of, the callback sees no event. *)
Lemma endTaskProcesses_disposed events :
  endTaskProcesses host events
    {| heap := h; trace := tr; executions := ex; listeners := [None] |}
  = (Normal tt,
     {| heap := h; trace := tr; executions := ex; listeners := [None] |}).
Proof.
  induction events as [|event events IH]; simpl; [reflexivity|].
  unfold bind. simpl. exact IH.
Qed.

Lemma endTaskProcesses_failed before event after :
  Forall (fun ev => ev_execution ev <> l_execution l) before ->
  ev_execution event = l_execution l ->
  ev_exitCode event <> Some 0%Z ->
  endTaskProcesses host (before ++ event :: after)
    {| heap := h; trace := tr; executions := ex; listeners := [Some l] |}
  = (Normal tt,
     {| heap := h; trace := tr; executions := ex; listeners := [None] |}).
Proof.
  intros Hbefore Heq Hcode.
  induction Hbefore as [|ev before Hev _ IH]; simpl.
  - rewrite (bind_normal _ _ _ _ _ (endTaskProcess_failed event Heq Hcode)).
    apply endTaskProcesses_disposed.
  - rewrite (bind_normal _ _ _ _ _ (endTaskProcess_other ev Hev)). exact IH.
Qed.
End OneListener.

(** C4: in the debug-test flow, once the process of the submitted build
    task ends with an exit code other than zero, nothing more happens: the
    trace of calls into the host stays as it was after the task was
    submitted (no query of the outputs, no debug launch), whatever events
    come before for other executions and whatever events come after. *)
Theorem bazelDebugTestTarget_build_failed_stops
    (host : Host) (adapter : IBazelCommandAdapter) (extraArgs : list jsstring)
    (s s1 : State) (r : ref) (O : CommandOptionsValue) (target : jsstring) :
  getBazelCommandOptions adapter s = (Normal r, s1) ->
  snapshot (heap s1) r = Some O ->
  v_targets O = [target] ->
  listeners s1 = [] ->
  exists s2,
    bazelDebugTestTarget host (Some adapter) extraArgs s = (Normal tt, s2)
    /\ forall before event after,
         Forall (fun ev => ev_execution ev <> executions s1) before ->
         ev_execution event = executions s1 ->
         ev_exitCode event <> Some 0%Z ->
         exists s3,
           endTaskProcesses host (before ++ event :: after) s2 = (Normal tt, s3)
           /\ trace s3 = trace s2
           /\ heap s3 = heap s2
           /\ listeners s3 = [None].
Proof.
  intros Hadapter Hsnap Htarget Hls.
  destruct (bazelDebugTestTargetFor_run host adapter extraArgs s s1 r O target
              Hadapter Hsnap Htarget) as (o & _ & Hrun).
  eexists. split; [exact Hrun|].
  intros before event after Hbefore Heq Hcode. rewrite Hls. simpl.
  eexists. split.
  - apply endTaskProcesses_failed; assumption.
  - simpl. auto.
Qed.

(** The build of the one target of [fooState] ends with exit code 1, after
    the end of some other task. *)
Lemma bazelDebugTestTarget_build_failed_stops_witness :
  exists s2,
    bazelDebugTestTarget exampleHost (Some (keptOptionsAdapter 0)) [] fooState
      = (Normal tt, s2)
    /\ exists s3,
         endTaskProcesses exampleHost
           [ {| ev_execution := 7; ev_exitCode := Some 0%Z |};
             {| ev_execution := 0; ev_exitCode := Some 1%Z |};
             {| ev_execution := 0; ev_exitCode := Some 0%Z |} ] s2 = (Normal tt, s3)
         /\ trace s3 = trace s2.
Proof.
  destruct (bazelDebugTestTarget_build_failed_stops exampleHost (keptOptionsAdapter 0)
              [] fooState fooState 0%nat
              {| v_options := [str "--foo"]; v_targets := [str "//x:y"];
                 v_workspaceInfo := exampleWorkspace |} (str "//x:y")
              eq_refl eq_refl eq_refl eq_refl) as (s2 & Hrun & Hstop).
  exists s2. split; [exact Hrun|].
  destruct (Hstop [ {| ev_execution := 7; ev_exitCode := Some 0%Z |} ]
                  {| ev_execution := 0; ev_exitCode := Some 1%Z |}
                  [ {| ev_execution := 0; ev_exitCode := Some 0%Z |} ])
    as (s3 & Hend & Htrace & _).
  - repeat constructor. simpl. lia.
  - reflexivity.
  - simpl. congruence.
  - exists s3. split; [exact Hend|exact Htrace].
Defined.

(** ** C5: what goes to the build, and what goes to the debugger *)

(** C5: in the debug-test flow, for every adapter and every sequence of
    extra flags, the submitted build task has as its options exactly
    "--compilation_mode", "dbg" and then the extra flags, whatever the
    command options of the adapter are; when the build succeeds and the
    query answers, the options of the adapter are, as they are and in
    order, the [args] of the debug configuration that is launched. *)
Theorem bazelDebugTestTarget_options_go_to_debugger
    (host : Host) (adapter : IBazelCommandAdapter) (extraArgs : list jsstring)
    (s s1 : State) (r : ref) (O : CommandOptionsValue) (target : jsstring)
    (event : TaskProcessEndEvent) (outputs : list jsstring) :
  getBazelCommandOptions adapter s = (Normal r, s1) ->
  snapshot (heap s1) r = Some O ->
  v_targets O = [target] ->
  listeners s1 = [] ->
  ev_execution event = executions s1 ->
  ev_exitCode event = Some 0%Z ->
  host_queryOutputs host (l_query (debugListener host r O target s1)) target
    (Some debugCompilationMode) = Normal outputs ->
  exists s2 s3 folder config,
    bazelDebugTestTarget host (Some adapter) extraArgs s = (Normal tt, s2)
    /\ trace s2 = trace s1 ++
         [ExecuteTask
            {| task_command := build;
               task_options :=
                 {| v_options := str "--compilation_mode" :: str "dbg" :: extraArgs;
                    v_targets := [target];
                    v_workspaceInfo := v_workspaceInfo O |} |}]
    /\ endTaskProcess host event s2 = (Normal tt, s3)
    /\ trace s3 = trace s2 ++
         [QueryOutputs (l_query (debugListener host r O target s1)) target
            (Some debugCompilationMode);
          StartDebugging folder config]
    /\ dc_args config = v_options O
    /\ dc_program config = outputs !! 0%nat.
Proof.
  intros Hadapter Hsnap Htarget Hls Heq Hcode Hquery.
  destruct (bazelDebugTestTargetFor_run host adapter extraArgs s s1 r O target
              Hadapter Hsnap Htarget) as (o & Ho & Hrun).
  destruct (snapshot_Some _ _ _ Hsnap) as (o' & Ho' & Hos & Hts & Hws).
  assert (o' = o) by congruence. subst o'.
  eexists. eexists. eexists. eexists.
  split; [exact Hrun|]. split; [reflexivity|].
  rewrite Hls. unfold endTaskProcess. simpl.
  unfold bind at 1. unfold tryCatch, debugTestCallback. simpl.
  apply Nat.eqb_eq in Heq. rewrite Heq. rewrite Hcode. simpl.
  unfold debugListener in Hquery. simpl in Hquery.
  unfold bind at 1. simpl. unfold queryOutputs.
  unfold bind at 1. unfold bind at 1. simpl. unfold liftCompletion.
  rewrite Hquery.
  erewrite bind_normal; cycle 1.
  { apply readObject_normal. simpl. apply lookup_app_l_Some. exact Ho. }
  erewrite bind_normal; cycle 1.
  { apply readArray_normal. simpl. apply lookup_app_l_Some. exact Hos. }
  simpl. split; [reflexivity|]. split.
  { rewrite <- app_assoc. reflexivity. }
  split; reflexivity.
Qed.

(** The build of the one target of [fooState] succeeds; the sanitizer flag
    goes to the build, "--foo" to the debugger. *)
Lemma bazelDebugTestTarget_options_go_to_debugger_witness :
  exists s2 s3 folder config,
    bazelDebugTestTarget exampleHost (Some (keptOptionsAdapter 0))
      [str "--config=clang-asan"] fooState = (Normal tt, s2)
    /\ trace s2 =
         [ExecuteTask
            {| task_command := build;
               task_options :=
                 {| v_options := [str "--compilation_mode"; str "dbg";
                                  str "--config=clang-asan"];
                    v_targets := [str "//x:y"];
                    v_workspaceInfo := exampleWorkspace |} |}]
    /\ endTaskProcess exampleHost {| ev_execution := 0; ev_exitCode := Some 0%Z |} s2
         = (Normal tt, s3)
    /\ trace s3 = trace s2 ++
         [QueryOutputs {| cq_executable := str "bazel"; cq_workspacePath := str "/ws" |}
            (str "//x:y") (Some debugCompilationMode);
          StartDebugging folder config]
    /\ dc_args config = [str "--foo"]
    /\ dc_program config = Some (str "/ws/bazel-bin/x/y").
Proof.
  exact (bazelDebugTestTarget_options_go_to_debugger exampleHost (keptOptionsAdapter 0)
           [str "--config=clang-asan"] fooState fooState 0%nat
           {| v_options := [str "--foo"]; v_targets := [str "//x:y"];
              v_workspaceInfo := exampleWorkspace |} (str "//x:y")
           {| ev_execution := 0; ev_exitCode := Some 0%Z |}
           [str "/ws/bazel-bin/x/y"]
           eq_refl eq_refl eq_refl eq_refl eq_refl eq_refl eq_refl).
Defined.

(** ** C7: the test path updates the options object it is given *)

(** C7, on the code: [bazelTestTarget] assigns to the [options] field of
    the object the adapter returns.  For a sub-test item the object that
    [getBazelCommandOptions] made holds ["--gtest_filter=GroupA.Case1"]
    before and ["--test_arg=--gtest_filter=GroupA.Case1"] after; and with an
    adapter that keeps its object, a second run wraps what the first run
    left, the extra flag included. *)
Lemma bazelTestTarget_updates_options_in_place :
  (exists s1 s2,
     getBazelCommandOptions (gtestItemAdapter exampleGTestItem) emptyState
       = (Normal 0%nat, s1)
     /\ snapshot (heap s1) 0 =
          Some {| v_options := [str "--gtest_filter=GroupA.Case1"];
                  v_targets := [str "//x:y"];
                  v_workspaceInfo := exampleWorkspace |}
     /\ bazelTestTarget exampleHost (Some (gtestItemAdapter exampleGTestItem))
          mode_test [] emptyState = (Normal tt, s2)
     /\ snapshot (heap s2) 0 =
          Some {| v_options := [str "--test_arg=--gtest_filter=GroupA.Case1"];
                  v_targets := [str "//x:y"];
                  v_workspaceInfo := exampleWorkspace |})
  /\ (exists s2 s3,
        bazelTestTarget exampleHost (Some (keptOptionsAdapter 0)) mode_test
          [str "--config=clang-asan"] fooState = (Normal tt, s2)
        /\ snapshot (heap fooState) 0 =
             Some {| v_options := [str "--foo"]; v_targets := [str "//x:y"];
                     v_workspaceInfo := exampleWorkspace |}
        /\ snapshot (heap s2) 0 =
             Some {| v_options := [str "--test_arg=--foo"; str "--config=clang-asan"];
                     v_targets := [str "//x:y"];
                     v_workspaceInfo := exampleWorkspace |}
        /\ bazelTestTarget exampleHost (Some (keptOptionsAdapter 0)) mode_test
             [str "--config=clang-asan"] s2 = (Normal tt, s3)
        /\ snapshot (heap s3) 0 =
             Some {| v_options := [str "--test_arg=--test_arg=--foo";
                                   str "--test_arg=--config=clang-asan";
                                   str "--config=clang-asan"];
                     v_targets := [str "//x:y"];
                     v_workspaceInfo := exampleWorkspace |}).
Proof.
  split.
  - eexists. eexists. split; [vm_compute; reflexivity|].
    split; [vm_compute; reflexivity|].
    split; [vm_compute; reflexivity|]. vm_compute. reflexivity.
  - eexists. eexists. split; [vm_compute; reflexivity|].
    split; [vm_compute; reflexivity|].
    split; [vm_compute; reflexivity|].
    split; [vm_compute; reflexivity|]. vm_compute. reflexivity.
Qed.

(** ** C9: the palette path drops the extra flags *)

Lemma testArg_not_modifier flag os :
  In flag [str "--compilation_mode=dbg"; str "--config=clang-asan"] ->
  ~ In flag (map testArg os).
Proof.
  intros Hflag Hin. apply in_map_iff in Hin. destruct Hin as (o & Ho & _).
  unfold testArg in Ho.
  destruct Hflag as [<-|[<-|[]]]; vm_compute in Ho; discriminate Ho.
Qed.

Lemma debugCompilationMode_not_modifier flag :
  In flag [str "--compilation_mode=dbg"; str "--config=clang-asan"] ->
  ~ In flag debugCompilationMode.
Proof.
  intros Hflag Hin.
  destruct Hflag as [<-|[<-|[]]]; vm_compute in Hin; intuition discriminate.
Qed.

(** C9: when a test or a debug-test command runs without an adapter and the
    user picks a target, the command calls itself with the picked adapter
    and no extra flags, whatever flags the first call carried.  So every
    registered command with modifiers does from the palette what the
    command without them does; the task that is submitted in the end has
    the wrapped options of the picked adapter alone (test, coverage), or
    "--compilation_mode", "dbg" alone (debug), and holds neither
    "--compilation_mode=dbg" nor "--config=clang-asan". *)
Theorem palette_reinvocation_drops_extra_flags
    (host : Host) (picked : IBazelCommandAdapter) (mode : TestMode)
    (extraArgs : list jsstring) (s s1 : State) (r : ref)
    (O : CommandOptionsValue) :
  host_pick host (QuickPickTargets (str "kind('.*_test rule', ...)")) = Some picked ->
  getBazelCommandOptions picked
    (afterQuickPick (QuickPickTargets (str "kind('.*_test rule', ...)")) s)
    = (Normal r, s1) ->
  snapshot (heap s1) r = Some O ->
  bazelTestTarget host None mode extraArgs s
    = bazelTestTarget host (Some picked) mode []
        (afterQuickPick (QuickPickTargets (str "kind('.*_test rule', ...)")) s)
  /\ bazelDebugTestTarget host None extraArgs s
     = bazelDebugTestTarget host (Some picked) []
         (afterQuickPick (QuickPickTargets (str "kind('.*_test rule', ...)")) s)
  /\ (forall command,
        runTestCommand host command None s
        = runTestCommand host (withoutModifiers command) None s)
  /\ (exists s2,
        bazelTestTarget host None mode extraArgs s = (Normal tt, s2)
        /\ trace s2 = trace s1 ++
             [ExecuteTask
                {| task_command := verbOfMode mode;
                   task_options :=
                     {| v_options := map testArg (v_options O);
                        v_targets := v_targets O;
                        v_workspaceInfo := v_workspaceInfo O |} |}])
  /\ (forall target, v_targets O = [target] ->
        exists s2,
          bazelDebugTestTarget host None extraArgs s = (Normal tt, s2)
          /\ trace s2 = trace s1 ++
               [ExecuteTask
                  {| task_command := build;
                     task_options :=
                       {| v_options := debugCompilationMode;
                          v_targets := [target];
                          v_workspaceInfo := v_workspaceInfo O |} |}])
  /\ (forall flag,
        In flag [str "--compilation_mode=dbg"; str "--config=clang-asan"] ->
        ~ In flag (map testArg (v_options O)) /\ ~ In flag debugCompilationMode).
Proof.
  intros Hpick Hadapter Hsnap.
  assert (Htest : forall E, bazelTestTarget host None mode E s
            = bazelTestTarget host (Some picked) mode []
                (afterQuickPick (QuickPickTargets (str "kind('.*_test rule', ...)")) s)).
  { intros E. unfold bazelTestTarget, showQuickPick, bind, afterQuickPick. simpl.
    rewrite Hpick. reflexivity. }
  assert (Hdebug : forall E, bazelDebugTestTarget host None E s
            = bazelDebugTestTarget host (Some picked) []
                (afterQuickPick (QuickPickTargets (str "kind('.*_test rule', ...)")) s)).
  { intros E. unfold bazelDebugTestTarget, showQuickPick, bind, afterQuickPick. simpl.
    rewrite Hpick. reflexivity. }
  split; [apply Htest|]. split; [apply Hdebug|]. split.
  { intros []; simpl; try reflexivity;
      first [ rewrite Htest; symmetry; apply (Htest [])
            | rewrite Hdebug; symmetry; apply (Hdebug []) ]. }
  split.
  { rewrite Htest.
    destruct (bazelTestTargetFor_run picked mode [] _ s1 r O Hadapter Hsnap)
      as (o & _ & Hrun).
    eexists. split; [exact Hrun|]. simpl. rewrite app_nil_r. reflexivity. }
  split.
  { intros target Htarget. rewrite Hdebug.
    destruct (bazelDebugTestTargetFor_run host picked [] _ s1 r O target
                Hadapter Hsnap Htarget) as (o & _ & Hrun).
    eexists. split; [exact Hrun|]. reflexivity. }
  intros flag Hflag. split.
  - apply testArg_not_modifier, Hflag.
  - apply debugCompilationMode_not_modifier, Hflag.
Qed.

(** The debug-mode test command from the palette, the user picking the
    example sub-test: the task has no "--compilation_mode=dbg". *)
Lemma palette_reinvocation_drops_extra_flags_witness :
  exists s2,
    bazelTestTarget exampleHost None mode_test [str "--compilation_mode=dbg"] emptyState
      = (Normal tt, s2)
    /\ trace s2 =
         [ShowQuickPick (QuickPickTargets (str "kind('.*_test rule', ...)"));
          ExecuteTask
            {| task_command := test;
               task_options :=
                 {| v_options := [str "--test_arg=--gtest_filter=GroupA.Case1"];
                    v_targets := [str "//x:y"];
                    v_workspaceInfo := exampleWorkspace |} |}].
Proof.
  destruct (palette_reinvocation_drops_extra_flags exampleHost
              (gtestItemAdapter exampleGTestItem) mode_test
              [str "--compilation_mode=dbg"] emptyState
              (getBazelCommandOptions (gtestItemAdapter exampleGTestItem)
                 (afterQuickPick
                    (QuickPickTargets (str "kind('.*_test rule', ...)")) emptyState)).2
              0%nat
              {| v_options := [str "--gtest_filter=GroupA.Case1"];
                 v_targets := [str "//x:y"];
                 v_workspaceInfo := exampleWorkspace |}
              eq_refl eq_refl eq_refl) as (_ & _ & _ & H & _).
  exact H.
Defined.

(** ** C10: the children of a target item *)

(** C10: when the query of the outputs succeeds, [getChildren] returns the
    empty list if the query gives a number of paths other than one, and
    returns the empty list, not the error, if running the test binary with
    "--gtest_list_tests" fails; it always returns a list; and a list that is
    not empty is the parse of the listing that the one artifact printed. *)
Theorem getChildren_empty_unless_one_artifact_lists
    (host : Host) (this : BazelTargetTreeItem) (s : State)
    (outputs : list jsstring) :
  host_queryOutputs host
    {| cq_executable := host_bazelExecutablePath host;
       cq_workspacePath := bazelWorkspacePath (tt_workspaceInfo this) |}
    (rule_name (tt_target this)) None = Normal outputs ->
  (length outputs <> 1%nat -> (getChildren host this s).1 = Normal (Some []))
  /\ (forall output0 e,
        outputs = [output0] ->
        host_execFile host output0 [str "--gtest_list_tests"]
          (bazelWorkspacePath (tt_workspaceInfo this)) = Throw e ->
        (getChildren host this s).1 = Normal (Some []))
  /\ (exists children, (getChildren host this s).1 = Normal (Some children))
  /\ (forall children,
        (getChildren host this s).1 = Normal (Some children) ->
        children <> [] ->
        exists output0 stdout,
          outputs = [output0]
          /\ host_execFile host output0 [str "--gtest_list_tests"]
               (bazelWorkspacePath (tt_workspaceInfo this)) = Normal stdout
          /\ parseGtestList this stdout = Normal children).
Proof.
  intros Hquery.
  assert (Hrun : (getChildren host this s).1 =
            match outputs with
            | [output0] =>
                match host_execFile host output0 [str "--gtest_list_tests"]
                        (bazelWorkspacePath (tt_workspaceInfo this)) with
                | Normal stdout =>
                    Normal (Some (map (treeItem this) (gtestListSingleHash stdout)))
                | Throw _ => Normal (Some [])
                end
            | _ => Normal (Some [])
            end).
  { unfold getChildren, queryOutputs, bind, emit, liftCompletion. simpl.
    rewrite Hquery.
    destruct outputs as [|output0 [|output1 outputs]]; try reflexivity.
    unfold fileExists, execFile, tryCatch, bind, emit, liftCompletion, ret. simpl.
    destruct (host_execFile host output0 _ _) as [stdout|e]; [|reflexivity].
    rewrite parseGtestList_walk. reflexivity. }
  split; [|split; [|split]].
  - intros Hlen. rewrite Hrun.
    destruct outputs as [|output0 [|output1 outputs]]; try reflexivity.
    simpl in Hlen. congruence.
  - intros output0 e -> Hexec. rewrite Hrun, Hexec. reflexivity.
  - rewrite Hrun.
    destruct outputs as [|output0 [|output1 outputs]]; eauto.
    destruct (host_execFile host output0 _ _); eauto.
  - intros children Hchildren Hne. rewrite Hrun in Hchildren.
    destruct outputs as [|output0 [|output1 outputs]];
      try (injection Hchildren as <-; congruence).
    destruct (host_execFile host output0 _ _) as [stdout|e] eqn:Hexec;
      [|injection Hchildren as <-; congruence].
    exists output0, stdout. split; [reflexivity|]. split; [exact Hexec|].
    rewrite parseGtestList_walk. injection Hchildren as <-. reflexivity.
Qed.

(** One artifact that lists the canonical listing: three children. *)
Lemma getChildren_empty_unless_one_artifact_lists_witness :
  exists output0 stdout,
    host_execFile exampleHost output0 [str "--gtest_list_tests"] (str "/ws")
      = Normal stdout
    /\ parseGtestList exampleTarget stdout =
         Normal (map (treeItem exampleTarget)
           [ {| qualifiedName := str "GroupA.Case1"; displayComment := None |};
             {| qualifiedName := str "GroupA.Case2";
                displayComment := Some (str "comment text") |};
             {| qualifiedName := str "GroupB.Case3"; displayComment := None |} ]).
Proof.
  destruct (getChildren_empty_unless_one_artifact_lists exampleHost exampleTarget
              emptyState [str "/ws/bazel-bin/x/y"] eq_refl) as (_ & _ & _ & H).
  destruct (H (map (treeItem exampleTarget)
           [ {| qualifiedName := str "GroupA.Case1"; displayComment := None |};
             {| qualifiedName := str "GroupA.Case2";
                displayComment := Some (str "comment text") |};
             {| qualifiedName := str "GroupB.Case3"; displayComment := None |} ]))
    as (output0 & stdout & _ & Hexec & Hparse).
  - vm_compute. reflexivity.
  - discriminate.
  - exists output0, stdout. split; [exact Hexec|exact Hparse].
Defined.

(** * Further properties of the parser *)

Lemma str_two_spaces : str "  " = [SPACE; SPACE].
Proof. reflexivity. Qed.

Lemma startsWith_two_spaces (s : jsstring) :
  startsWith s (str "  ") =
    match s with
    | c1 :: c2 :: _ => (c1 =? SPACE) && (c2 =? SPACE)
    | _ => false
    end.
Proof.
  rewrite str_two_spaces.
  destruct s as [|c1 [|c2 s]]; simpl; try reflexivity.
  - apply andb_false_r.
  - destruct s; simpl; rewrite andb_true_r; reflexivity.
Qed.

Lemma split_app (sep : N) (a b : jsstring) :
  split sep (a ++ sep :: b) = split sep a ++ split sep b.
Proof.
  induction a as [|c a IH]; simpl.
  - rewrite N.eqb_refl. reflexivity.
  - destruct (c =? sep); [rewrite IH; reflexivity|].
    rewrite IH. pose proof (split_nonempty sep a) as Hne.
    destruct (split sep a); [congruence|reflexivity].
Qed.

(** The first line starts with two spaces exactly when the text does. *)
Lemma first_line_startsWith (b h : jsstring) (rest : list jsstring) :
  split LF b = h :: rest ->
  startsWith h (str "  ") = startsWith b (str "  ").
Proof.
  rewrite !startsWith_two_spaces.
  destruct b as [|c1 [|c2 b]]; simpl.
  - intros [= <- _]. reflexivity.
  - destruct (c1 =? LF); intros [= <- _]; reflexivity.
  - destruct (c1 =? LF) eqn:H1.
    + intros [= <- _]. apply N.eqb_eq in H1. subst c1. reflexivity.
    + destruct (c2 =? LF) eqn:H2.
      * intros [= <- _]. apply N.eqb_eq in H2. subst c2.
        rewrite andb_false_r. reflexivity.
      * pose proof (split_nonempty LF b) as Hne.
        destruct (split LF b); [congruence|]. intros [= <- _]. reflexivity.
Qed.

Lemma walkLines_app caseOf group (a b : list jsstring) :
  walkLines caseOf group (a ++ b) =
    walkLines caseOf group a ++ walkLines caseOf (groupAfter group a) b.
Proof.
  revert group. induction a as [|l a IH]; intros group; simpl; [reflexivity|].
  unfold groupAfter. simpl. fold (groupAfter (if startsWith l (str "  ") then group else trim l) a).
  destruct (startsWith l (str "  ")); simpl; rewrite IH; reflexivity.
Qed.

Lemma walkLines_header_first caseOf group group' (ls : list jsstring) h rest :
  ls = h :: rest ->
  startsWith h (str "  ") = false ->
  walkLines caseOf group ls = walkLines caseOf group' ls.
Proof. intros -> Hh. simpl. rewrite Hh. reflexivity. Qed.

(** X1: a line feed at the end of the listing changes nothing. *)
Theorem parseGtestList_trailing_line_feed
    (this : BazelTargetTreeItem) (input : jsstring) :
  parseGtestList this (input ++ [LF]) = parseGtestList this input.
Proof.
  rewrite !parseGtestList_walk. rewrite split_app, walkLines_app.
  simpl. rewrite app_nil_r. reflexivity.
Qed.

(** X2: two listings, the second of which does not begin with a case line,
    parse one after the other: the tests of the two, joined by a line feed,
    are the tests of the first followed by the tests of the second. *)
Theorem parseGtestList_of_joined_listings
    (this : BazelTargetTreeItem) (a b : jsstring)
    (testsA testsB : list BazelGTestTreeItem) :
  startsWith b (str "  ") = false ->
  parseGtestList this a = Normal testsA ->
  parseGtestList this b = Normal testsB ->
  parseGtestList this (a ++ LF :: b) = Normal (testsA ++ testsB).
Proof.
  intros Hb Ha Hb'. rewrite parseGtestList_walk in *.
  injection Ha as <-. injection Hb' as <-.
  rewrite split_app, walkLines_app, map_app. do 3 f_equal.
  pose proof (split_nonempty LF b) as Hne.
  destruct (split LF b) as [|h rest] eqn:Hsplit; [congruence|].
  eapply walkLines_header_first; [reflexivity|].
  rewrite (first_line_startsWith b h rest Hsplit). exact Hb.
Qed.

Lemma parseGtestList_of_joined_listings_witness :
  parseGtestList exampleTarget (str "A." ++ LF :: str "  x" ++ LF :: str "B." ++ LF :: str "  y")
  = Normal (map (treeItem exampleTarget)
      [ {| qualifiedName := str "A.x"; displayComment := None |};
        {| qualifiedName := str "B.y"; displayComment := None |} ]).
Proof.
  change (str "A." ++ LF :: str "  x" ++ LF :: str "B." ++ LF :: str "  y")
    with ((str "A." ++ LF :: str "  x") ++ LF :: (str "B." ++ LF :: str "  y")).
  apply (parseGtestList_of_joined_listings exampleTarget
           (str "A." ++ LF :: str "  x") (str "B." ++ LF :: str "  y")
           [treeItem exampleTarget {| qualifiedName := str "A.x"; displayComment := None |}]
           [treeItem exampleTarget {| qualifiedName := str "B.y"; displayComment := None |}]);
    vm_compute; reflexivity.
Defined.

(** ** Trimming *)

Lemma trimStart_split (s : jsstring) :
  exists w, s = w ++ trimStart s.
Proof.
  induction s as [|c s [w IH]]; simpl.
  - exists []. reflexivity.
  - destruct (isWhiteSpace c).
    + exists (c :: w). simpl. f_equal. exact IH.
    + exists []. reflexivity.
Qed.

Lemma trimStart_idem (s : jsstring) : trimStart (trimStart s) = trimStart s.
Proof.
  induction s as [|c s IH]; simpl; [reflexivity|].
  destruct (isWhiteSpace c) eqn:Hc; [exact IH|]. simpl. rewrite Hc. reflexivity.
Qed.

Lemma trimStart_fixed_head (c : N) (t : jsstring) :
  trimStart (c :: t) = c :: t -> isWhiteSpace c = false.
Proof.
  simpl. destruct (isWhiteSpace c); [|reflexivity]. intros H.
  destruct (trimStart_split t) as [w Hw]. rewrite H in Hw.
  apply (f_equal (@length N)) in Hw. rewrite length_app in Hw. simpl in Hw. lia.
Qed.

Lemma trimStart_prefix (p q : jsstring) :
  trimStart (p ++ q) = p ++ q -> trimStart p = p.
Proof.
  destruct p as [|c p]; [reflexivity|]. intros H.
  simpl. rewrite (trimStart_fixed_head c (p ++ q) H). reflexivity.
Qed.

Lemma trimStart_app_fixed (a b : jsstring) :
  trimStart a = a -> trimStart b = b -> trimStart (a ++ b) = a ++ b.
Proof.
  destruct a as [|c a]; [intros _ H; exact H|]. intros Ha _.
  simpl. rewrite (trimStart_fixed_head c a Ha). reflexivity.
Qed.

Lemma trimStart_snoc_ws (s : jsstring) (c : N) :
  isWhiteSpace c = true ->
  trimStart (s ++ [c]) =
    match trimStart s with
    | [] => []
    | x :: t => x :: t ++ [c]
    end.
Proof.
  intros Hc. induction s as [|x s IH]; simpl.
  - rewrite Hc. reflexivity.
  - destruct (isWhiteSpace x); [exact IH|reflexivity].
Qed.

Lemma trimEnd_snoc_ws (s : jsstring) (c : N) :
  isWhiteSpace c = true -> trimEnd (s ++ [c]) = trimEnd s.
Proof.
  intros Hc. unfold trimEnd. rewrite rev_app_distr. simpl. rewrite Hc. reflexivity.
Qed.

Lemma trim_snoc_ws (s : jsstring) (c : N) :
  isWhiteSpace c = true -> trim (s ++ [c]) = trim s.
Proof.
  intros Hc. unfold trim. rewrite (trimStart_snoc_ws s c Hc).
  destruct (trimStart s) as [|x t]; [reflexivity|].
  apply (trimEnd_snoc_ws (x :: t) c Hc).
Qed.

(** The two ends of [trim s] are not white space: trimming it again, at
    either end, changes nothing. *)
Lemma trim_fixed (s : jsstring) :
  trimStart (trim s) = trim s /\ trimStart (rev (trim s)) = rev (trim s).
Proof.
  unfold trim, trimEnd. rewrite rev_involutive. split; [|apply trimStart_idem].
  destruct (trimStart_split (rev (trimStart s))) as [w Hw].
  apply (trimStart_prefix _ (rev w)).
  rewrite <- rev_app_distr, <- Hw, rev_involutive. apply trimStart_idem.
Qed.

Lemma fixed_trim (s : jsstring) :
  trimStart s = s -> trimStart (rev s) = rev s -> trim s = s.
Proof.
  intros H1 H2. unfold trim, trimEnd. rewrite H1, H2. apply rev_involutive.
Qed.

Lemma trim_idem (s : jsstring) : trim (trim s) = trim s.
Proof. destruct (trim_fixed s). apply fixed_trim; assumption. Qed.

Lemma trim_app_trimmed (a b : jsstring) :
  trim (trim a ++ trim b) = trim a ++ trim b.
Proof.
  destruct (trim_fixed a) as [Ha1 Ha2]. destruct (trim_fixed b) as [Hb1 Hb2].
  apply fixed_trim.
  - apply trimStart_app_fixed; assumption.
  - rewrite rev_app_distr. apply trimStart_app_fixed; assumption.
Qed.

Lemma includes_app (a b : jsstring) (c : N) :
  includes (a ++ b) c = includes a c || includes b c.
Proof. unfold includes. apply existsb_app. Qed.

Lemma includes_rev (s : jsstring) (c : N) : includes (rev s) c = includes s c.
Proof.
  induction s as [|x s IH]; [reflexivity|].
  simpl rev. rewrite includes_app, IH. unfold includes. simpl.
  rewrite orb_false_r. apply orb_comm.
Qed.

Lemma includes_trimStart (s : jsstring) (c : N) :
  includes s c = false -> includes (trimStart s) c = false.
Proof.
  intros H. destruct (trimStart_split s) as [w Hw]. rewrite Hw in H.
  rewrite includes_app in H. apply orb_false_iff in H. apply H.
Qed.

Lemma includes_trim (s : jsstring) (c : N) :
  includes s c = false -> includes (trim s) c = false.
Proof.
  intros H. unfold trim, trimEnd. rewrite includes_rev.
  apply includes_trimStart. rewrite includes_rev.
  apply includes_trimStart. exact H.
Qed.

(** ** Names and comments come out trimmed *)

Lemma walkLines_trimmed group (ls : list jsstring) d :
  trim group = group ->
  In d (walkLines singleHashCase group ls) ->
  trim (qualifiedName d) = qualifiedName d
  /\ forall c, displayComment d = Some c -> trim c = c /\ includes c HASH = false.
Proof.
  revert group. induction ls as [|l ls IH]; intros group Hg; simpl; [tauto|].
  destruct (startsWith l (str "  ")).
  - intros [<-|Hin]; [|exact (IH group Hg Hin)].
    unfold singleHashCase.
    destruct (cutFirst HASH l) as [b [a|]] eqn:Hcut; simpl.
    + split; [rewrite <- Hg; apply trim_app_trimmed|].
      destruct (includes a HASH) eqn:Ha; [discriminate|].
      intros c [= <-]. split; [apply trim_idem|apply includes_trim, Ha].
    + split; [rewrite <- Hg; apply trim_app_trimmed|discriminate].
  - intros Hin. exact (IH (trim l) (trim_idem l) Hin).
Qed.

(** X3: every test that [parseGtestList] returns has a name with no white
    space at either end, and its comment, when it has one, has no white
    space at either end and holds no '#'. *)
Theorem parseGtestList_names_and_comments_trimmed
    (this : BazelTargetTreeItem) (input : jsstring)
    (tests : list BazelGTestTreeItem) (g : BazelGTestTreeItem) :
  parseGtestList this input = Normal tests ->
  In g tests ->
  trim (testName g) = testName g
  /\ forall c, comment g = Some c -> trim c = c /\ includes c HASH = false.
Proof.
  rewrite parseGtestList_walk. intros [= <-] Hin.
  apply in_map_iff in Hin. destruct Hin as (d & <- & Hd). simpl.
  apply (walkLines_trimmed [] (split LF input) d); [reflexivity|exact Hd].
Qed.

Lemma parseGtestList_names_and_comments_trimmed_witness :
  trim (str "G.Case") = str "G.Case"
  /\ forall c, Some (str "p = 1") = Some c -> trim c = c /\ includes c HASH = false.
Proof.
  apply (parseGtestList_names_and_comments_trimmed exampleTarget
           (str " G. " ++ LF :: str "   Case  #  p = 1 ")
           [treeItem exampleTarget
              {| qualifiedName := str "G.Case"; displayComment := Some (str "p = 1") |}]
           (treeItem exampleTarget
              {| qualifiedName := str "G.Case"; displayComment := Some (str "p = 1") |})).
  - vm_compute. reflexivity.
  - left. reflexivity.
Defined.

(** ** Carriage returns *)

Lemma split_withCarriageReturns (s : jsstring) :
  split LF (withCarriageReturns s) = addCarriageReturns (split LF s).
Proof.
  induction s as [|c s IH]; [reflexivity|].
  pose proof (split_nonempty LF s) as Hne.
  change (withCarriageReturns (c :: s))
    with ((if c =? LF then [CR; LF] else [c]) ++ withCarriageReturns s).
  cbn [split]. destruct (c =? LF) eqn:Hc.
  - change (split LF ([CR; LF] ++ withCarriageReturns s))
      with ([CR] :: split LF (withCarriageReturns s)).
    rewrite IH. destruct (split LF s); [congruence|reflexivity].
  - cbn [app split]. rewrite Hc, IH.
    destruct (split LF s) as [|p [|p' ps]]; [congruence| |]; reflexivity.
Qed.

Lemma startsWith_snoc_CR (l : jsstring) :
  startsWith (l ++ [CR]) (str "  ") = startsWith l (str "  ").
Proof.
  rewrite !startsWith_two_spaces.
  destruct l as [|c1 [|c2 l]]; simpl; try reflexivity.
  apply andb_false_r.
Qed.

Lemma cutFirst_snoc (sep c : N) (l : jsstring) :
  (c =? sep) = false ->
  cutFirst sep (l ++ [c]) =
    match cutFirst sep l with
    | (b, None) => (b ++ [c], None)
    | (b, Some a) => (b, Some (a ++ [c]))
    end.
Proof.
  intros Hc. induction l as [|x l IH]; simpl.
  - rewrite Hc. reflexivity.
  - destruct (x =? sep); [reflexivity|].
    rewrite IH. destruct (cutFirst sep l) as [b [a|]]; reflexivity.
Qed.

Lemma singleHashCase_snoc_CR group (l : jsstring) :
  singleHashCase group (l ++ [CR]) = singleHashCase group l.
Proof.
  unfold singleHashCase. rewrite (cutFirst_snoc HASH CR l eq_refl).
  destruct (cutFirst HASH l) as [b [a|]].
  - rewrite includes_app. replace (includes [CR] HASH) with false by reflexivity.
    rewrite orb_false_r. destruct (includes a HASH); [reflexivity|].
    rewrite (trim_snoc_ws a CR eq_refl). reflexivity.
  - rewrite (trim_snoc_ws b CR eq_refl). reflexivity.
Qed.

Lemma walkLines_addCarriageReturns group (ls : list jsstring) :
  walkLines singleHashCase group (addCarriageReturns ls) =
    walkLines singleHashCase group ls.
Proof.
  revert group. induction ls as [|l [|l' ls] IH]; intros group; try reflexivity.
  change (addCarriageReturns (l :: l' :: ls))
    with ((l ++ [CR]) :: addCarriageReturns (l' :: ls)).
  cbn [walkLines]. rewrite startsWith_snoc_CR, singleHashCase_snoc_CR.
  rewrite (trim_snoc_ws l CR eq_refl). rewrite !IH. reflexivity.
Qed.

(** X4: a listing with "\r\n" line ends gives the tests of the listing
    with "\n" line ends. *)
Theorem parseGtestList_carriage_returns
    (this : BazelTargetTreeItem) (input : jsstring) :
  parseGtestList this (withCarriageReturns input) = parseGtestList this input.
Proof.
  rewrite !parseGtestList_walk.
  rewrite split_withCarriageReturns, walkLines_addCarriageReturns. reflexivity.
Qed.

(** * Further properties of the tree items *)

Lemma lastIndexOf_absent (s : jsstring) (c : N) :
  includes s c = false -> lastIndexOf s c = (-1)%Z.
Proof.
  unfold includes. induction s as [|x s IH]; simpl; [reflexivity|].
  intros H. apply orb_false_iff in H. destruct H as [Hx Hs].
  rewrite (IH Hs). simpl. rewrite N.eqb_sym, Hx. reflexivity.
Qed.

Lemma lastIndexOf_last (a b : jsstring) (c : N) :
  includes b c = false -> lastIndexOf (a ++ c :: b) c = Z.of_nat (length a).
Proof.
  intros Hb. induction a as [|x a IH].
  - simpl. rewrite (lastIndexOf_absent b c Hb). simpl. rewrite N.eqb_refl. reflexivity.
  - cbn [app lastIndexOf]. rewrite IH.
    replace (0 <=? Z.of_nat (length a))%Z with true by (symmetry; apply Z.leb_le; lia).
    simpl length. lia.
Qed.

(** X5: the label of a target item is the rule name from its last colon
    on, two spaces and the rule class in parentheses; a rule name without
    any colon gives its last code unit in place of the target name
    ([lastIndexOf] answers -1, which [substr] counts from the end). *)
Theorem getLabel_from_last_colon (this : BazelTargetTreeItem) :
  (forall pkg tgt,
     rule_name (tt_target this) = pkg ++ COLON :: tgt ->
     includes tgt COLON = false ->
     TargetItem.getLabel this =
       COLON :: tgt ++ str "  (" ++ rule_ruleClass (tt_target this) ++ str ")")
  /\ (includes (rule_name (tt_target this)) COLON = false ->
      TargetItem.getLabel this =
        drop (length (rule_name (tt_target this)) - 1) (rule_name (tt_target this))
        ++ str "  (" ++ rule_ruleClass (tt_target this) ++ str ")").
Proof.
  unfold TargetItem.getLabel. split.
  - intros pkg tgt Hname Htgt. rewrite Hname.
    rewrite (lastIndexOf_last pkg tgt COLON Htgt). unfold substr.
    replace (Z.of_nat (length pkg) <? 0)%Z with false by (symmetry; apply Z.ltb_ge; lia).
    rewrite length_app. simpl length.
    replace (Z.to_nat (Z.min (Z.of_nat (length pkg))
                         (Z.of_nat (length pkg + S (length tgt)))))
      with (length pkg) by lia.
    rewrite drop_app_length. reflexivity.
  - intros Hname. rewrite (lastIndexOf_absent _ _ Hname). unfold substr.
    replace (-1 <? 0)%Z with true by reflexivity.
    replace (Z.to_nat (Z.max (Z.of_nat (length (rule_name (tt_target this))) + -1) 0))
      with (length (rule_name (tt_target this)) - 1)%nat by lia.
    reflexivity.
Qed.

Lemma getLabel_from_last_colon_witness :
  TargetItem.getLabel exampleTarget = str ":y  (cc_test)"
  /\ TargetItem.getLabel bareTarget = str "o  (cc_test)".
Proof.
  destruct (getLabel_from_last_colon exampleTarget) as [Hcolon _].
  destruct (getLabel_from_last_colon bareTarget) as [_ Hbare].
  split.
  - apply (Hcolon (str "//x") (str "y")); reflexivity.
  - apply Hbare. reflexivity.
Defined.

(** ** What the tree items answer as adapters *)

Lemma targetItemAdapter_run (this : BazelTargetTreeItem) (s : State) :
  getBazelCommandOptions (targetItemAdapter this) s =
    (Normal (length (objects (heap s))),
     {| heap :=
          {| arrays := arrays (heap s) ++ [[]; [rule_name (tt_target this)]];
             objects := objects (heap s) ++
               [ {| options := length (arrays (heap s));
                    targets := S (length (arrays (heap s)));
                    workspaceInfo := tt_workspaceInfo this |} ] |};
        trace := trace s; executions := executions s; listeners := listeners s |}).
Proof.
  destruct s as [[arrs objs] tr ex ls]. unfold targetItemAdapter, getBazelCommandOptions.
  unfold bind, newArray, newObject, bind, getHeap, setHeap, ret. simpl.
  rewrite length_app, <- app_assoc. simpl. rewrite Nat.add_1_r. reflexivity.
Qed.

Lemma gtestItemAdapter_run (this : BazelGTestTreeItem) (s : State) :
  getBazelCommandOptions (gtestItemAdapter this) s =
    (Normal (length (objects (heap s))),
     {| heap :=
          {| arrays := arrays (heap s) ++
               [[str "--gtest_filter=" ++ testName this]; [rule_name (gt_target this)]];
             objects := objects (heap s) ++
               [ {| options := length (arrays (heap s));
                    targets := S (length (arrays (heap s)));
                    workspaceInfo := gt_workspaceInfo this |} ] |};
        trace := trace s; executions := executions s; listeners := listeners s |}).
Proof.
  destruct s as [[arrs objs] tr ex ls]. unfold gtestItemAdapter, getBazelCommandOptions.
  unfold bind, newArray, newObject, bind, getHeap, setHeap, ret. simpl.
  rewrite length_app, <- app_assoc. simpl. rewrite Nat.add_1_r. reflexivity.
Qed.

(** The object a tree item makes is new, and holds what the item says. *)
Lemma fresh_options_snapshot arrs objs os ts ws :
  snapshot
    {| arrays := arrs ++ [os; ts];
       objects := objs ++ [ {| options := length arrs; targets := S (length arrs);
                               workspaceInfo := ws |} ] |}
    (length objs)
  = Some {| v_options := os; v_targets := ts; v_workspaceInfo := ws |}.
Proof.
  unfold snapshot. simpl.
  rewrite lookup_app_r by lia. rewrite Nat.sub_diag. simpl.
  rewrite lookup_app_r by lia. rewrite Nat.sub_diag. simpl.
  rewrite lookup_app_r by lia.
  replace (S (length arrs) - length arrs)%nat with 1%nat by lia. reflexivity.
Qed.

(** X6: testing a target item, from any state: the task has the extra
    flags as its only options and the rule name as its only target, and
    nothing that was in the heap before is changed (the object whose
    options the command rewrites is the one the item has just made).  So
    the command can be repeated, and gives the same task each time. *)
Theorem bazelTestTarget_of_target_item
    (host : Host) (this : BazelTargetTreeItem) (mode : TestMode)
    (extraArgs : list jsstring) (s : State) :
  exists s2 arrs objs,
    bazelTestTarget host (Some (targetItemAdapter this)) mode extraArgs s
      = (Normal tt, s2)
    /\ trace s2 = trace s ++
         [ExecuteTask
            {| task_command := verbOfMode mode;
               task_options :=
                 {| v_options := extraArgs;
                    v_targets := [rule_name (tt_target this)];
                    v_workspaceInfo := tt_workspaceInfo this |} |}]
    /\ arrays (heap s2) = arrays (heap s) ++ arrs
    /\ objects (heap s2) = objects (heap s) ++ objs.
Proof.
  destruct (bazelTestTargetFor_run (targetItemAdapter this) mode extraArgs s _ _ _
              (targetItemAdapter_run this s)
              (fresh_options_snapshot _ _ _ _ _)) as (o & _ & Hrun).
  eexists. eexists. eexists. split; [exact Hrun|]. simpl.
  split; [reflexivity|]. split.
  - rewrite <- app_assoc. reflexivity.
  - rewrite insert_app_r_alt by lia. rewrite Nat.sub_diag. reflexivity.
Qed.

(** X7: every test that [parseGtestList] lists for a target can be run by
    itself: testing it submits a task for the target of the parent item, in
    the parent's workspace, whose options are
    "--test_arg=--gtest_filter=" followed by the name of the test, and then
    the extra flags; nothing that was in the heap before is changed. *)
Theorem bazelTestTarget_of_listed_test
    (host : Host) (this : BazelTargetTreeItem) (input : jsstring)
    (tests : list BazelGTestTreeItem) (g : BazelGTestTreeItem)
    (mode : TestMode) (extraArgs : list jsstring) (s : State) :
  parseGtestList this input = Normal tests ->
  In g tests ->
  exists s2 arrs objs,
    bazelTestTarget host (Some (gtestItemAdapter g)) mode extraArgs s
      = (Normal tt, s2)
    /\ trace s2 = trace s ++
         [ExecuteTask
            {| task_command := verbOfMode mode;
               task_options :=
                 {| v_options :=
                      (str "--test_arg=--gtest_filter=" ++ testName g) :: extraArgs;
                    v_targets := [rule_name (tt_target this)];
                    v_workspaceInfo := tt_workspaceInfo this |} |}]
    /\ arrays (heap s2) = arrays (heap s) ++ arrs
    /\ objects (heap s2) = objects (heap s) ++ objs.
Proof.
  rewrite parseGtestList_walk. intros [= <-] Hin.
  apply in_map_iff in Hin. destruct Hin as (d & <- & _).
  destruct (bazelTestTargetFor_run (gtestItemAdapter (treeItem this d)) mode extraArgs
              s _ _ _
              (gtestItemAdapter_run (treeItem this d) s)
              (fresh_options_snapshot _ _ _ _ _)) as (o & _ & Hrun).
  eexists. eexists. eexists. split; [exact Hrun|]. simpl.
  split; [reflexivity|]. split.
  - rewrite <- app_assoc. reflexivity.
  - rewrite insert_app_r_alt by lia. rewrite Nat.sub_diag. reflexivity.
Qed.

Lemma bazelTestTarget_of_listed_test_witness :
  exists s2,
    bazelTestTarget exampleHost (Some (gtestItemAdapter exampleGTestItem)) mode_coverage
      [] fooState = (Normal tt, s2)
    /\ trace s2 =
         [ExecuteTask
            {| task_command := coverage;
               task_options :=
                 {| v_options := [str "--test_arg=--gtest_filter=GroupA.Case1"];
                    v_targets := [str "//x:y"];
                    v_workspaceInfo := exampleWorkspace |} |}].
Proof.
  destruct (bazelTestTarget_of_listed_test exampleHost exampleTarget canonicalListing
              (map (treeItem exampleTarget)
                 [ {| qualifiedName := str "GroupA.Case1"; displayComment := None |};
                   {| qualifiedName := str "GroupA.Case2";
                      displayComment := Some (str "comment text") |};
                   {| qualifiedName := str "GroupB.Case3"; displayComment := None |} ])
              exampleGTestItem mode_coverage [] fooState)
    as (s2 & _ & _ & Hrun & Htrace & _).
  - vm_compute. reflexivity.
  - left. reflexivity.
  - exists s2. split; [exact Hrun|exact Htrace].
Defined.

(** * Further properties of the commands *)

(** X8: building and running a target submit the command options of the
    adapter as they are, and change nothing in the heap. *)
Theorem bazelBuildTarget_and_bazelRunTarget_pass_options
    (host : Host) (adapter : IBazelCommandAdapter) (s s1 : State) (r : ref)
    (O : CommandOptionsValue) :
  getBazelCommandOptions adapter s = (Normal r, s1) ->
  snapshot (heap s1) r = Some O ->
  bazelBuildTarget host (Some adapter) s =
    (Normal tt,
     {| heap := heap s1;
        trace := trace s1 ++ [ExecuteTask {| task_command := build; task_options := O |}];
        executions := S (executions s1); listeners := listeners s1 |})
  /\ bazelRunTarget host (Some adapter) s =
    (Normal tt,
     {| heap := heap s1;
        trace := trace s1 ++ [ExecuteTask {| task_command := run; task_options := O |}];
        executions := S (executions s1); listeners := listeners s1 |}).
Proof.
  intros Hadapter Hsnap.
  unfold bazelBuildTarget, bazelBuildTargetFor, bazelRunTarget, bazelRunTargetFor.
  rewrite !(bind_normal _ _ _ _ _ Hadapter).
  rewrite !(bind_normal _ _ _ _ _ (createBazelTask_normal _ _ _ _ Hsnap)).
  split; reflexivity.
Qed.

Lemma bazelBuildTarget_and_bazelRunTarget_pass_options_witness :
  bazelRunTarget exampleHost (Some (keptOptionsAdapter 0)) fooState =
    (Normal tt,
     {| heap := heap fooState;
        trace :=
          [ExecuteTask
             {| task_command := run;
                task_options :=
                  {| v_options := [str "--foo"]; v_targets := [str "//x:y"];
                     v_workspaceInfo := exampleWorkspace |} |}];
        executions := 1; listeners := [] |}).
Proof.
  exact (proj2 (bazelBuildTarget_and_bazelRunTarget_pass_options exampleHost
                  (keptOptionsAdapter 0) fooState fooState 0%nat
                  {| v_options := [str "--foo"]; v_targets := [str "//x:y"];
                     v_workspaceInfo := exampleWorkspace |} eq_refl eq_refl)).
Defined.

(** X9: a cancelled quick pick ends the command: the quick pick is the only
    call into the host, nothing is submitted, and the command returns
    without an error. *)
Theorem cancelled_pick_ends_the_command
    (host : Host) (suffix : jsstring) (mode : TestMode)
    (extraArgs : list jsstring) (s : State) :
  (host_pick host (QuickPickTargets (str "kind('.* rule', ...)")) = None ->
     bazelBuildTarget host None s =
       (Normal tt, afterQuickPick (QuickPickTargets (str "kind('.* rule', ...)")) s)
     /\ bazelRunTarget host None s =
       (Normal tt, afterQuickPick (QuickPickTargets (str "kind('.* rule', ...)")) s))
  /\ (host_pick host (QuickPickTargets (str "kind('.*_test rule', ...)")) = None ->
     bazelTestTarget host None mode extraArgs s =
       (Normal tt, afterQuickPick (QuickPickTargets (str "kind('.*_test rule', ...)")) s)
     /\ bazelDebugTestTarget host None extraArgs s =
       (Normal tt, afterQuickPick (QuickPickTargets (str "kind('.*_test rule', ...)")) s))
  /\ (host_pick host QuickPickPackage = None ->
     buildPackage host suffix None s = (Normal tt, afterQuickPick QuickPickPackage s)
     /\ testPackage host suffix None mode s
        = (Normal tt, afterQuickPick QuickPickPackage s)).
Proof.
  split; [|split]; intros Hpick; split;
    unfold bazelBuildTarget, bazelRunTarget, bazelTestTarget, bazelDebugTestTarget,
      buildPackage, testPackage, showQuickPick, bind, afterQuickPick; simpl;
    rewrite Hpick; reflexivity.
Qed.

Lemma cancelled_pick_ends_the_command_witness :
  bazelDebugTestTarget rejectingHost None [str "--config=clang-asan"] fooState =
    (Normal tt,
     {| heap := heap fooState;
        trace := [ShowQuickPick (QuickPickTargets (str "kind('.*_test rule', ...)"))];
        executions := 0; listeners := [] |})
  /\ testPackage rejectingHost (str "/...") None mode_coverage fooState =
    (Normal tt,
     {| heap := heap fooState; trace := [ShowQuickPick QuickPickPackage];
        executions := 0; listeners := [] |}).
Proof.
  destruct (cancelled_pick_ends_the_command rejectingHost (str "/...") mode_coverage
              [str "--config=clang-asan"] fooState) as (_ & Htest & Hpackage).
  split.
  - exact (proj2 (Htest eq_refl)).
  - exact (proj2 (Hpackage eq_refl)).
Defined.

(** X10: from the palette, the build, run and package commands pass
    everything on to the call with the picked adapter: the package commands
    keep their suffix and their mode. *)
Theorem palette_reinvocation_keeps_suffix_and_mode
    (host : Host) (picked : IBazelCommandAdapter) (suffix : jsstring)
    (mode : TestMode) (s : State) :
  (host_pick host (QuickPickTargets (str "kind('.* rule', ...)")) = Some picked ->
     bazelBuildTarget host None s =
       bazelBuildTarget host (Some picked)
         (afterQuickPick (QuickPickTargets (str "kind('.* rule', ...)")) s)
     /\ bazelRunTarget host None s =
       bazelRunTarget host (Some picked)
         (afterQuickPick (QuickPickTargets (str "kind('.* rule', ...)")) s))
  /\ (host_pick host QuickPickPackage = Some picked ->
     buildPackage host suffix None s =
       buildPackage host suffix (Some picked) (afterQuickPick QuickPickPackage s)
     /\ testPackage host suffix None mode s =
       testPackage host suffix (Some picked) mode (afterQuickPick QuickPickPackage s)).
Proof.
  split; intros Hpick; split;
    unfold bazelBuildTarget, bazelRunTarget, buildPackage, testPackage,
      showQuickPick, bind, afterQuickPick; simpl;
    rewrite Hpick; reflexivity.
Qed.

Lemma palette_reinvocation_keeps_suffix_and_mode_witness :
  exists s2,
    bazelTestAllRecursive exampleHost None mode_coverage emptyState = (Normal tt, s2)
    /\ trace s2 =
         [ShowQuickPick QuickPickPackage;
          ExecuteTask
            {| task_command := coverage;
               task_options :=
                 {| v_options := [str "--gtest_filter=GroupA.Case1"];
                    v_targets := [str "//x:y/..."];
                    v_workspaceInfo := exampleWorkspace |} |}].
Proof.
  destruct (palette_reinvocation_keeps_suffix_and_mode exampleHost
              (gtestItemAdapter exampleGTestItem) (str "/...") mode_coverage emptyState)
    as [_ Hpackage].
  destruct (Hpackage eq_refl) as [_ Htest].
  eexists. split.
  - unfold bazelTestAllRecursive. rewrite Htest. vm_compute. reflexivity.
  - vm_compute. reflexivity.
Defined.

(** ** What [bazelTestTarget] changes in the heap *)

(** X11: whatever the adapter, [bazelTestTarget] writes into no array that
    exists: it makes one new array and assigns it to the [options] field of
    the object the adapter returned.  That object's targets and workspace,
    every other object and every array that was there stay as they were. *)
Theorem bazelTestTarget_changes_only_the_options_field
    (host : Host) (adapter : IBazelCommandAdapter) (mode : TestMode)
    (extraArgs : list jsstring) (s s1 : State) (r : ref)
    (O : CommandOptionsValue) :
  getBazelCommandOptions adapter s = (Normal r, s1) ->
  snapshot (heap s1) r = Some O ->
  exists s2 o,
    bazelTestTarget host (Some adapter) mode extraArgs s = (Normal tt, s2)
    /\ arrays (heap s2) =
         arrays (heap s1) ++
           [map (fun opt => str "--test_arg=" ++ opt) (v_options O) ++ extraArgs]
    /\ objects (heap s1) !! r = Some o
    /\ objects (heap s2) !! r =
         Some {| options := length (arrays (heap s1)); targets := targets o;
                 workspaceInfo := workspaceInfo o |}
    /\ (forall j, j <> r -> objects (heap s2) !! j = objects (heap s1) !! j)
    /\ (forall i xs, arrays (heap s1) !! i = Some xs -> arrays (heap s2) !! i = Some xs).
Proof.
  intros Hadapter Hsnap.
  destruct (bazelTestTargetFor_run adapter mode extraArgs s s1 r O Hadapter Hsnap)
    as (o & Ho & Hrun).
  eexists. exists o. split; [exact Hrun|]. simpl.
  split; [reflexivity|]. split; [exact Ho|]. split.
  - apply list_lookup_insert_eq. eapply lookup_lt_Some. exact Ho.
  - split.
    + intros j Hj. apply list_lookup_insert_ne. congruence.
    + intros i xs Hi. apply lookup_app_l_Some. exact Hi.
Qed.

Lemma bazelTestTarget_changes_only_the_options_field_witness :
  exists s2,
    bazelTestTarget exampleHost (Some (keptOptionsAdapter 0)) mode_test
      [str "--config=clang-asan"] fooState = (Normal tt, s2)
    /\ heap s2 =
         {| arrays := [[str "--foo"]; [str "//x:y"];
                       [str "--test_arg=--foo"; str "--config=clang-asan"]];
            objects := [ {| options := 2; targets := 1;
                            workspaceInfo := exampleWorkspace |} ] |}.
Proof.
  destruct (bazelTestTarget_changes_only_the_options_field exampleHost
              (keptOptionsAdapter 0) mode_test [str "--config=clang-asan"]
              fooState fooState 0%nat
              {| v_options := [str "--foo"]; v_targets := [str "//x:y"];
                 v_workspaceInfo := exampleWorkspace |} eq_refl eq_refl)
    as (s2 & o & Hrun & _).
  exists s2. split; [exact Hrun|].
  assert (H : (Normal tt, s2) =
            bazelTestTarget exampleHost (Some (keptOptionsAdapter 0)) mode_test
              [str "--config=clang-asan"] fooState) by (symmetry; exact Hrun).
  vm_compute in H. injection H as ->. reflexivity.
Defined.

(** * Further properties of the debug-test flow *)

Lemma launches_app (a b : list Event) : launches (a ++ b) = (launches a + launches b)%nat.
Proof. unfold launches. rewrite List.filter_app, length_app. reflexivity. Qed.

Lemma queries_app (a b : list Event) : queries (a ++ b) = (queries a + queries b)%nat.
Proof. unfold queries. rewrite List.filter_app, length_app. reflexivity. Qed.

Section AwaitedExecution.
Variable host : Host.
Variables (h : Heap) (tr : list Event) (ex : nat) (l : DebugTestListener).

(** The event of the awaited execution with exit code 0, when the query
    answers and the options are there: the query, then the launch. *)
Lemma endTaskProcess_succeeded event outputs o args :
  ev_execution event = l_execution l ->
  ev_exitCode event = Some 0%Z ->
  host_queryOutputs host (l_query l) (l_target l) (Some debugCompilationMode)
    = Normal outputs ->
  objects h !! l_commandOptions l = Some o ->
  arrays h !! options o = Some args ->
  endTaskProcess host event
    {| heap := h; trace := tr; executions := ex; listeners := [Some l] |}
  = (Normal tt,
     {| heap := h;
        trace := tr ++
          [QueryOutputs (l_query l) (l_target l) (Some debugCompilationMode);
           StartDebugging (workspaceFolder (workspaceInfo o))
             {| dc_name := str "Debug Test Target: " ++ l_target l;
                dc_type := str "lldb";
                dc_request := str "launch";
                dc_program := outputs !! 0%nat;
                dc_args := args;
                dc_cwd := l_cwd l;
                dc_breakpointMode := str "file";
                dc_sourceMap :=
                  spread [(str "/proc/self/cwd", str "${workspaceFolder}")]
                         (host_extraDebugSourceMappings host);
                dc_logging_programOutput := true;
                dc_internalConsoleOptions := str "neverOpen";
                dc_externalConsole := false |}];
        executions := ex; listeners := [None] |}).
Proof.
  intros Heq Hcode Hquery Ho Hargs. unfold endTaskProcess. simpl.
  unfold bind at 1. unfold tryCatch, debugTestCallback.
  apply Nat.eqb_eq in Heq. rewrite Heq, Hcode. simpl.
  unfold bind at 1. simpl. unfold queryOutputs.
  unfold bind at 1. unfold bind at 1. simpl. unfold liftCompletion. rewrite Hquery.
  erewrite bind_normal; cycle 1.
  { apply readObject_normal. simpl. exact Ho. }
  erewrite bind_normal; cycle 1.
  { apply readArray_normal. simpl. exact Hargs. }
  simpl. rewrite <- app_assoc. reflexivity.
Qed.

(** The event of the awaited execution with exit code 0, when the query is
    rejected: the query is the last call; the rejection is not seen. *)
Lemma endTaskProcess_query_rejected event e :
  ev_execution event = l_execution l ->
  ev_exitCode event = Some 0%Z ->
  host_queryOutputs host (l_query l) (l_target l) (Some debugCompilationMode)
    = Throw e ->
  endTaskProcess host event
    {| heap := h; trace := tr; executions := ex; listeners := [Some l] |}
  = (Normal tt,
     {| heap := h;
        trace := tr ++
          [QueryOutputs (l_query l) (l_target l) (Some debugCompilationMode)];
        executions := ex; listeners := [None] |}).
Proof.
  intros Heq Hcode Hquery. unfold endTaskProcess. simpl.
  unfold bind at 1. unfold tryCatch, debugTestCallback.
  apply Nat.eqb_eq in Heq. rewrite Heq, Hcode. simpl.
  unfold bind at 1. simpl. unfold queryOutputs.
  unfold bind at 1. unfold bind at 1. simpl. unfold liftCompletion. rewrite Hquery.
  reflexivity.
Qed.

(** Whatever the event of the awaited execution says, and whatever the
    host answers, the callback is disposed of and has made at most one
    query and at most one launch. *)
Lemma endTaskProcess_awaited event :
  ev_execution event = l_execution l ->
  exists extra,
    endTaskProcess host event
      {| heap := h; trace := tr; executions := ex; listeners := [Some l] |}
    = (Normal tt,
       {| heap := h; trace := tr ++ extra; executions := ex; listeners := [None] |})
    /\ (launches extra <= 1)%nat /\ (queries extra <= 1)%nat.
Proof.
  intros Heq. unfold endTaskProcess. simpl.
  unfold bind at 1. unfold tryCatch, debugTestCallback.
  apply Nat.eqb_eq in Heq. rewrite Heq.
  unfold bind at 1. simpl.
  destruct (exitCodeNotZero (ev_exitCode event)).
  { exists []. rewrite app_nil_r. simpl. split; [reflexivity|].
    unfold launches, queries. simpl. lia. }
  unfold queryOutputs. unfold bind at 1. unfold bind at 1. simpl. unfold liftCompletion.
  destruct (host_queryOutputs host (l_query l) (l_target l) (Some debugCompilationMode))
    as [outputs|e].
  2:{ eexists [_]. split; [reflexivity|]. unfold launches, queries. simpl. lia. }
  unfold bind at 1. unfold readObject at 1. unfold bind at 1. simpl.
  destruct (objects h !! l_commandOptions l) as [o|]; simpl.
  2:{ eexists [_]. split; [reflexivity|]. unfold launches, queries. simpl. lia. }
  unfold bind at 1. unfold readArray at 1. unfold bind at 1. simpl.
  destruct (arrays h !! options o) as [args|]; simpl.
  2:{ eexists [_]. split; [reflexivity|]. unfold launches, queries. simpl. lia. }
  eexists [_; _]. rewrite <- app_assoc. split; [reflexivity|].
  unfold launches, queries. simpl. lia.
Qed.

(** Any sequence of events: the callback makes at most one query and at
    most one launch, and no event is an error. *)
Lemma endTaskProcesses_bound events :
  exists extra ls,
    endTaskProcesses host events
      {| heap := h; trace := tr; executions := ex; listeners := [Some l] |}
    = (Normal tt,
       {| heap := h; trace := tr ++ extra; executions := ex; listeners := ls |})
    /\ (launches extra <= 1)%nat /\ (queries extra <= 1)%nat.
Proof.
  induction events as [|event events IH].
  - exists [], [Some l]. rewrite app_nil_r. simpl. split; [reflexivity|].
    unfold launches, queries. simpl. lia.
  - destruct (Nat.eq_dec (ev_execution event) (l_execution l)) as [Heq|Hne].
    + destruct (endTaskProcess_awaited event Heq) as (extra & Hrun & Hl & Hq).
      exists extra, [None]. cbn [endTaskProcesses].
      rewrite (bind_normal _ _ _ _ _ Hrun).
      rewrite (endTaskProcesses_disposed host h (tr ++ extra) ex events). auto.
    + destruct IH as (extra & ls & Hrun & Hl & Hq).
      exists extra, ls. cbn [endTaskProcesses].
      rewrite (bind_normal _ _ _ _ _ (endTaskProcess_other host h tr ex l event Hne)).
      auto.
Qed.
End AwaitedExecution.

(** X12: a debug-test flow launches at most one debug session and makes at
    most one query, whatever events the host reports for whatever
    executions, in whatever order and however often; reporting them never
    fails and never changes the heap. *)
Theorem bazelDebugTestTarget_at_most_one_launch
    (host : Host) (adapter : IBazelCommandAdapter) (extraArgs : list jsstring)
    (s s1 : State) (r : ref) (O : CommandOptionsValue) (target : jsstring) :
  getBazelCommandOptions adapter s = (Normal r, s1) ->
  snapshot (heap s1) r = Some O ->
  v_targets O = [target] ->
  listeners s1 = [] ->
  exists s2,
    bazelDebugTestTarget host (Some adapter) extraArgs s = (Normal tt, s2)
    /\ forall events,
         exists s3 extra,
           endTaskProcesses host events s2 = (Normal tt, s3)
           /\ trace s3 = trace s2 ++ extra
           /\ (launches extra <= 1)%nat
           /\ (queries extra <= 1)%nat
           /\ heap s3 = heap s2.
Proof.
  intros Hadapter Hsnap Htarget Hls.
  destruct (bazelDebugTestTargetFor_run host adapter extraArgs s s1 r O target
              Hadapter Hsnap Htarget) as (o & _ & Hrun).
  eexists. split; [exact Hrun|].
  intros events. rewrite Hls. simpl.
  edestruct (endTaskProcesses_bound host) as (extra & ls & Hend & Hl & Hq).
  eexists. exists extra. split; [exact Hend|]. simpl. auto.
Qed.

(** The build of [fooState]'s target is reported as ended three times. *)
Lemma bazelDebugTestTarget_at_most_one_launch_witness :
  exists s2 s3 extra,
    bazelDebugTestTarget exampleHost (Some (keptOptionsAdapter 0)) [] fooState
      = (Normal tt, s2)
    /\ endTaskProcesses exampleHost
         [ {| ev_execution := 0; ev_exitCode := Some 0%Z |};
           {| ev_execution := 0; ev_exitCode := Some 0%Z |};
           {| ev_execution := 0; ev_exitCode := Some 1%Z |} ] s2 = (Normal tt, s3)
    /\ trace s3 = trace s2 ++ extra
    /\ (launches extra <= 1)%nat.
Proof.
  destruct (bazelDebugTestTarget_at_most_one_launch exampleHost (keptOptionsAdapter 0)
              [] fooState fooState 0%nat
              {| v_options := [str "--foo"]; v_targets := [str "//x:y"];
                 v_workspaceInfo := exampleWorkspace |} (str "//x:y")
              eq_refl eq_refl eq_refl eq_refl) as (s2 & Hrun & Hevents).
  destruct (Hevents [ {| ev_execution := 0; ev_exitCode := Some 0%Z |};
                      {| ev_execution := 0; ev_exitCode := Some 0%Z |};
                      {| ev_execution := 0; ev_exitCode := Some 1%Z |} ])
    as (s3 & extra & Hend & Htrace & Hl & _).
  exists s2, s3, extra. auto.
Defined.

(** X13: when the build succeeds and the query of the outputs is rejected,
    the flow ends there: the query is the last call into the host, no debug
    session is launched, and the rejection is never reported. *)
Theorem bazelDebugTestTarget_query_rejected
    (host : Host) (adapter : IBazelCommandAdapter) (extraArgs : list jsstring)
    (s s1 : State) (r : ref) (O : CommandOptionsValue) (target : jsstring)
    (event : TaskProcessEndEvent) (e : JsError) :
  getBazelCommandOptions adapter s = (Normal r, s1) ->
  snapshot (heap s1) r = Some O ->
  v_targets O = [target] ->
  listeners s1 = [] ->
  ev_execution event = executions s1 ->
  ev_exitCode event = Some 0%Z ->
  host_queryOutputs host (l_query (debugListener host r O target s1)) target
    (Some debugCompilationMode) = Throw e ->
  exists s2 s3,
    bazelDebugTestTarget host (Some adapter) extraArgs s = (Normal tt, s2)
    /\ endTaskProcess host event s2 = (Normal tt, s3)
    /\ trace s3 = trace s2 ++
         [QueryOutputs (l_query (debugListener host r O target s1)) target
            (Some debugCompilationMode)]
    /\ listeners s3 = [None].
Proof.
  intros Hadapter Hsnap Htarget Hls Heq Hcode Hquery.
  destruct (bazelDebugTestTargetFor_run host adapter extraArgs s s1 r O target
              Hadapter Hsnap Htarget) as (o & _ & Hrun).
  eexists. eexists. split; [exact Hrun|].
  rewrite Hls. simpl. split.
  - exact (endTaskProcess_query_rejected host _ _ _
             (debugListener host r O target s1) event e Heq Hcode Hquery).
  - simpl. auto.
Qed.

Lemma bazelDebugTestTarget_query_rejected_witness :
  exists s2 s3,
    bazelDebugTestTarget rejectingHost (Some (keptOptionsAdapter 0)) [] fooState
      = (Normal tt, s2)
    /\ endTaskProcess rejectingHost {| ev_execution := 0; ev_exitCode := Some 0%Z |} s2
       = (Normal tt, s3)
    /\ launches (trace s3) = 0%nat.
Proof.
  destruct (bazelDebugTestTarget_query_rejected rejectingHost (keptOptionsAdapter 0)
              [] fooState fooState 0%nat
              {| v_options := [str "--foo"]; v_targets := [str "//x:y"];
                 v_workspaceInfo := exampleWorkspace |} (str "//x:y")
              {| ev_execution := 0; ev_exitCode := Some 0%Z |}
              (Rejected (str "query failed"))
              eq_refl eq_refl eq_refl eq_refl eq_refl eq_refl eq_refl)
    as (s2 & s3 & Hrun & Hend & Htrace & _).
  exists s2, s3. split; [exact Hrun|]. split; [exact Hend|].
  rewrite Htrace, launches_app.
  assert (H : (Normal tt, s2) =
            bazelDebugTestTarget rejectingHost (Some (keptOptionsAdapter 0)) [] fooState)
    by (symmetry; exact Hrun).
  vm_compute in H. injection H as ->. reflexivity.
Defined.

(** ** The debug configuration *)

(** The flow from the adapter's answer to the launch. *)
Lemma bazelDebugTestTarget_launch host adapter extraArgs s s1 r O target event outputs :
  getBazelCommandOptions adapter s = (Normal r, s1) ->
  snapshot (heap s1) r = Some O ->
  v_targets O = [target] ->
  listeners s1 = [] ->
  ev_execution event = executions s1 ->
  ev_exitCode event = Some 0%Z ->
  host_queryOutputs host (l_query (debugListener host r O target s1)) target
    (Some debugCompilationMode) = Normal outputs ->
  exists s2 s3,
    bazelDebugTestTarget host (Some adapter) extraArgs s = (Normal tt, s2)
    /\ trace s2 = trace s1 ++
         [ExecuteTask
            {| task_command := build;
               task_options :=
                 {| v_options := debugCompilationMode ++ extraArgs;
                    v_targets := [target];
                    v_workspaceInfo := v_workspaceInfo O |} |}]
    /\ endTaskProcess host event s2 = (Normal tt, s3)
    /\ trace s3 = trace s2 ++
         [QueryOutputs (l_query (debugListener host r O target s1)) target
            (Some debugCompilationMode);
          StartDebugging (workspaceFolder (v_workspaceInfo O))
            (launchConfiguration host O target outputs)]
    /\ listeners s3 = [None]
    /\ heap s3 = heap s2.
Proof.
  intros Hadapter Hsnap Htarget Hls Heq Hcode Hquery.
  destruct (bazelDebugTestTargetFor_run host adapter extraArgs s s1 r O target
              Hadapter Hsnap Htarget) as (o & Ho & Hrun).
  destruct (snapshot_Some _ _ _ Hsnap) as (o' & Ho' & Hos & Hts & Hws).
  assert (o' = o) by congruence. subst o'.
  eexists. eexists. split; [exact Hrun|]. split; [reflexivity|].
  rewrite Hls. simpl. split.
  - apply (endTaskProcess_succeeded host _ _ _ (debugListener host r O target s1)
             event outputs o (v_options O) Heq Hcode Hquery).
    + simpl. apply lookup_app_l_Some. exact Ho.
    + simpl. apply lookup_app_l_Some. exact Hos.
  - simpl. rewrite Hws. unfold launchConfiguration. simpl. auto.
Qed.

(** X14: the debug session of the debug-test flow: it is launched in the
    workspace folder of the options, under the name "Debug Test Target: "
    and the target, with the workspace path as working directory and the
    first path of the query as program; when the query gives no path the
    session is launched all the same, with no program. *)
Theorem bazelDebugTestTarget_launch_configuration
    (host : Host) (adapter : IBazelCommandAdapter) (extraArgs : list jsstring)
    (s s1 : State) (r : ref) (O : CommandOptionsValue) (target : jsstring)
    (event : TaskProcessEndEvent) (outputs : list jsstring) :
  getBazelCommandOptions adapter s = (Normal r, s1) ->
  snapshot (heap s1) r = Some O ->
  v_targets O = [target] ->
  listeners s1 = [] ->
  ev_execution event = executions s1 ->
  ev_exitCode event = Some 0%Z ->
  host_queryOutputs host (l_query (debugListener host r O target s1)) target
    (Some debugCompilationMode) = Normal outputs ->
  exists s2 s3 config,
    bazelDebugTestTarget host (Some adapter) extraArgs s = (Normal tt, s2)
    /\ endTaskProcess host event s2 = (Normal tt, s3)
    /\ trace s3 = trace s2 ++
         [QueryOutputs
            {| cq_executable := host_bazelExecutablePath host;
               cq_workspacePath := bazelWorkspacePath (v_workspaceInfo O) |}
            target (Some [str "--compilation_mode"; str "dbg"]);
          StartDebugging (workspaceFolder (v_workspaceInfo O)) config]
    /\ dc_name config = str "Debug Test Target: " ++ target
    /\ dc_type config = str "lldb"
    /\ dc_request config = str "launch"
    /\ dc_cwd config = bazelWorkspacePath (v_workspaceInfo O)
    /\ dc_program config = head outputs
    /\ (outputs = [] -> dc_program config = None).
Proof.
  intros Hadapter Hsnap Htarget Hls Heq Hcode Hquery.
  destruct (bazelDebugTestTarget_launch host adapter extraArgs s s1 r O target event
              outputs Hadapter Hsnap Htarget Hls Heq Hcode Hquery)
    as (s2 & s3 & Hrun & _ & Hend & Htrace & _).
  exists s2, s3, (launchConfiguration host O target outputs).
  split; [exact Hrun|]. split; [exact Hend|]. split; [exact Htrace|].
  simpl. repeat (split; [reflexivity|]). split.
  - destruct outputs; reflexivity.
  - intros ->. reflexivity.
Qed.

(** A query that finds nothing: the session has no program. *)
Lemma bazelDebugTestTarget_launch_configuration_witness :
  exists s2 s3 config,
    bazelDebugTestTarget emptyOutputsHost (Some (keptOptionsAdapter 0)) [] fooState
      = (Normal tt, s2)
    /\ endTaskProcess emptyOutputsHost {| ev_execution := 0; ev_exitCode := Some 0%Z |} s2
       = (Normal tt, s3)
    /\ launches (trace s3) = 1%nat
    /\ dc_name config = str "Debug Test Target: //x:y"
    /\ dc_program config = None.
Proof.
  destruct (bazelDebugTestTarget_launch_configuration emptyOutputsHost
              (keptOptionsAdapter 0)
              [] fooState fooState 0%nat
              {| v_options := [str "--foo"]; v_targets := [str "//x:y"];
                 v_workspaceInfo := exampleWorkspace |} (str "//x:y")
              {| ev_execution := 0; ev_exitCode := Some 0%Z |} []
              eq_refl eq_refl eq_refl eq_refl eq_refl eq_refl eq_refl)
    as (s2 & s3 & config & Hrun & Hend & Htrace & Hname & _ & _ & _ & _ & Hprogram).
  exists s2, s3, config. split; [exact Hrun|]. split; [exact Hend|].
  split; [|split; [exact Hname|exact (Hprogram eq_refl)]].
  rewrite Htrace, launches_app.
  assert (H : (Normal tt, s2) =
            bazelDebugTestTarget emptyOutputsHost (Some (keptOptionsAdapter 0)) []
              fooState)
    by (symmetry; exact Hrun).
  vm_compute in H. injection H as ->. reflexivity.
Defined.

(** ** The source map *)

Lemma getProperty_setProperty (k k' v : jsstring) (o : list (jsstring * jsstring)) :
  getProperty k' (setProperty k v o) =
    if bool_decide (k' = k) then Some v else getProperty k' o.
Proof.
  induction o as [|[k0 v0] o IH]; simpl.
  - destruct (bool_decide (k' = k)); reflexivity.
  - destruct (bool_decide (k = k0)) eqn:Hk; simpl.
    + apply bool_decide_eq_true in Hk. subst k0.
      destruct (bool_decide (k' = k)); reflexivity.
    + apply bool_decide_eq_false in Hk.
      destruct (bool_decide (k' = k0)) eqn:Hk'.
      * apply bool_decide_eq_true in Hk'. subst k0.
        rewrite bool_decide_eq_false_2 by congruence. reflexivity.
      * exact IH.
Qed.

Lemma lastAssigned_from (k : jsstring) (kvs : list (jsstring * jsstring))
    (found : option jsstring) :
  fold_left (fun found kv => if bool_decide (k = kv.1) then Some kv.2 else found)
    kvs found =
  match lastAssigned k kvs with
  | Some v => Some v
  | None => found
  end.
Proof.
  unfold lastAssigned. revert found.
  induction kvs as [|[k0 v0] kvs IH]; intros found; simpl; [reflexivity|].
  rewrite IH. rewrite (IH (if bool_decide (k = k0) then Some v0 else None)).
  destruct (fold_left _ kvs None); [reflexivity|].
  destruct (bool_decide (k = k0)); reflexivity.
Qed.

(** Reading a key of [{ ...base, ...extra }]: the last entry of [extra] for
    the key, and the entry of [base] when [extra] has none. *)
Lemma getProperty_spread (k : jsstring) (base extra : list (jsstring * jsstring)) :
  getProperty k (spread base extra) =
    match lastAssigned k extra with
    | Some v => Some v
    | None => getProperty k base
    end.
Proof.
  unfold spread. revert base.
  induction extra as [|[k0 v0] extra IH]; intros base; [reflexivity|].
  cbn [fold_left fst snd]. rewrite IH, getProperty_setProperty. clear IH.
  assert (Hcons : lastAssigned k ((k0, v0) :: extra) =
            match lastAssigned k extra with
            | Some v => Some v
            | None => if bool_decide (k = k0) then Some v0 else None
            end).
  { unfold lastAssigned at 1. cbn [fold_left fst snd]. apply lastAssigned_from. }
  rewrite Hcons. destruct (lastAssigned k extra); [reflexivity|].
  destruct (bool_decide (k = k0)); reflexivity.
Qed.

(** X15: in the source map of the debug session the mappings of the setting
    [bazel.extraDebugSourceMappings] come after the built-in one and win:
    a key of the setting maps to what the setting says, also
    "/proc/self/cwd"; "/proc/self/cwd" maps to "${workspaceFolder}" only
    when the setting does not mention it; no other key is mapped. *)
Theorem bazelDebugTestTarget_source_map
    (host : Host) (adapter : IBazelCommandAdapter) (extraArgs : list jsstring)
    (s s1 : State) (r : ref) (O : CommandOptionsValue) (target : jsstring)
    (event : TaskProcessEndEvent) (outputs : list jsstring) :
  getBazelCommandOptions adapter s = (Normal r, s1) ->
  snapshot (heap s1) r = Some O ->
  v_targets O = [target] ->
  listeners s1 = [] ->
  ev_execution event = executions s1 ->
  ev_exitCode event = Some 0%Z ->
  host_queryOutputs host (l_query (debugListener host r O target s1)) target
    (Some debugCompilationMode) = Normal outputs ->
  exists s2 s3 query folder config,
    bazelDebugTestTarget host (Some adapter) extraArgs s = (Normal tt, s2)
    /\ endTaskProcess host event s2 = (Normal tt, s3)
    /\ trace s3 = trace s2 ++ [query; StartDebugging folder config]
    /\ forall k,
         getProperty k (dc_sourceMap config) =
           match lastAssigned k (host_extraDebugSourceMappings host) with
           | Some v => Some v
           | None =>
               if bool_decide (k = str "/proc/self/cwd")
               then Some (str "${workspaceFolder}")
               else None
           end.
Proof.
  intros Hadapter Hsnap Htarget Hls Heq Hcode Hquery.
  destruct (bazelDebugTestTarget_launch host adapter extraArgs s s1 r O target event
              outputs Hadapter Hsnap Htarget Hls Heq Hcode Hquery)
    as (s2 & s3 & Hrun & _ & Hend & Htrace & _).
  exists s2, s3. eexists. eexists. eexists.
  split; [exact Hrun|]. split; [exact Hend|]. split; [exact Htrace|].
  intros k. unfold launchConfiguration. cbn [dc_sourceMap].
  rewrite getProperty_spread. reflexivity.
Qed.

(** A setting that maps "/proc/self/cwd" itself, and "/a". *)
Lemma bazelDebugTestTarget_source_map_witness :
  exists config,
    getProperty (str "/proc/self/cwd") (dc_sourceMap config) = Some (str "/src")
    /\ getProperty (str "/a") (dc_sourceMap config) = Some (str "/b")
    /\ getProperty (str "/c") (dc_sourceMap config) = None.
Proof.
  destruct (bazelDebugTestTarget_source_map mappingHost (keptOptionsAdapter 0)
              [] fooState fooState 0%nat
              {| v_options := [str "--foo"]; v_targets := [str "//x:y"];
                 v_workspaceInfo := exampleWorkspace |} (str "//x:y")
              {| ev_execution := 0; ev_exitCode := Some 0%Z |} [str "/out"]
              eq_refl eq_refl eq_refl eq_refl eq_refl eq_refl eq_refl)
    as (s2 & s3 & query & folder & config & _ & _ & _ & Hmap).
  exists config. rewrite !Hmap. repeat split; vm_compute; reflexivity.
Defined.

(** ** Debugging a listed test *)

(** X16: every test that [parseGtestList] lists for a target can be
    debugged by itself: the build is the debug build of the parent's
    target, with the extra flags and without the filter; once it succeeds
    the session is launched with "--gtest_filter=" and the name of the test
    as the only argument of the program. *)
Theorem bazelDebugTestTarget_of_listed_test
    (host : Host) (this : BazelTargetTreeItem) (input : jsstring)
    (tests : list BazelGTestTreeItem) (g : BazelGTestTreeItem)
    (extraArgs : list jsstring) (s : State)
    (event : TaskProcessEndEvent) (outputs : list jsstring) :
  parseGtestList this input = Normal tests ->
  In g tests ->
  listeners s = [] ->
  ev_execution event = executions s ->
  ev_exitCode event = Some 0%Z ->
  host_queryOutputs host
    {| cq_executable := host_bazelExecutablePath host;
       cq_workspacePath := bazelWorkspacePath (tt_workspaceInfo this) |}
    (rule_name (tt_target this)) (Some [str "--compilation_mode"; str "dbg"])
    = Normal outputs ->
  exists s2 s3 query config,
    bazelDebugTestTarget host (Some (gtestItemAdapter g)) extraArgs s = (Normal tt, s2)
    /\ trace s2 = trace s ++
         [ExecuteTask
            {| task_command := build;
               task_options :=
                 {| v_options := str "--compilation_mode" :: str "dbg" :: extraArgs;
                    v_targets := [rule_name (tt_target this)];
                    v_workspaceInfo := tt_workspaceInfo this |} |}]
    /\ endTaskProcess host event s2 = (Normal tt, s3)
    /\ trace s3 = trace s2 ++
         [query; StartDebugging (workspaceFolder (tt_workspaceInfo this)) config]
    /\ dc_args config = [str "--gtest_filter=" ++ testName g]
    /\ dc_program config = head outputs.
Proof.
  rewrite parseGtestList_walk. intros [= <-] Hin Hls Heq Hcode Hquery.
  apply in_map_iff in Hin. destruct Hin as (d & <- & _).
  destruct (bazelDebugTestTarget_launch host (gtestItemAdapter (treeItem this d))
              extraArgs s _ _ _ (rule_name (tt_target this)) event outputs
              (gtestItemAdapter_run (treeItem this d) s)
              (fresh_options_snapshot _ _ _ _ _) eq_refl Hls Heq Hcode Hquery)
    as (s2 & s3 & Hrun & Htrace2 & Hend & Htrace3 & _).
  exists s2, s3. eexists. eexists.
  split; [exact Hrun|]. split; [exact Htrace2|]. split; [exact Hend|].
  split; [exact Htrace3|]. simpl. split; [reflexivity|].
  destruct outputs; reflexivity.
Qed.

Lemma bazelDebugTestTarget_of_listed_test_witness :
  exists s2 s3 query config,
    bazelDebugTestTarget exampleHost (Some (gtestItemAdapter exampleGTestItem))
      [str "--config=clang-asan"] emptyState = (Normal tt, s2)
    /\ endTaskProcess exampleHost {| ev_execution := 0; ev_exitCode := Some 0%Z |} s2
       = (Normal tt, s3)
    /\ trace s3 = trace s2 ++ [query; StartDebugging (str "ws") config]
    /\ dc_args config = [str "--gtest_filter=GroupA.Case1"]
    /\ dc_program config = Some (str "/ws/bazel-bin/x/y").
Proof.
  destruct (bazelDebugTestTarget_of_listed_test exampleHost exampleTarget
              canonicalListing
              (map (treeItem exampleTarget)
                 [ {| qualifiedName := str "GroupA.Case1"; displayComment := None |};
                   {| qualifiedName := str "GroupA.Case2";
                      displayComment := Some (str "comment text") |};
                   {| qualifiedName := str "GroupB.Case3"; displayComment := None |} ])
              exampleGTestItem [str "--config=clang-asan"] emptyState
              {| ev_execution := 0; ev_exitCode := Some 0%Z |}
              [str "/ws/bazel-bin/x/y"])
    as (s2 & s3 & query & config & Hrun & _ & Hend & Htrace & Hargs & Hprogram).
  - vm_compute. reflexivity.
  - left. reflexivity.
  - reflexivity.
  - reflexivity.
  - reflexivity.
  - reflexivity.
  - exists s2, s3, query, config. auto.
Defined.

(** * Further properties of [getChildren] *)

(** X17: [getChildren] never looks at what [fileExists] finds: with any
    answer of [fs.stat] it does the same; and with one output it always runs
    the binary, after asking for the file. *)
Theorem getChildren_ignores_fileExists
    (host : Host) (stat : jsstring -> bool) (this : BazelTargetTreeItem)
    (s : State) :
  getChildren (withStat stat host) this s = getChildren host this s
  /\ forall output0,
       host_queryOutputs host
         {| cq_executable := host_bazelExecutablePath host;
            cq_workspacePath := bazelWorkspacePath (tt_workspaceInfo this) |}
         (rule_name (tt_target this)) None = Normal [output0] ->
       trace (getChildren host this s).2 = trace s ++
         [QueryOutputs
            {| cq_executable := host_bazelExecutablePath host;
               cq_workspacePath := bazelWorkspacePath (tt_workspaceInfo this) |}
            (rule_name (tt_target this)) None;
          Stat output0;
          ExecFile output0 [str "--gtest_list_tests"]
            (bazelWorkspacePath (tt_workspaceInfo this))].
Proof.
  split; [reflexivity|].
  intros output0 Hquery.
  unfold getChildren, queryOutputs, bind, emit, liftCompletion. simpl.
  rewrite Hquery.
  unfold fileExists, execFile, tryCatch, bind, emit, liftCompletion, ret. simpl.
  destruct (host_execFile host output0 _ _) as [stdout|e]; simpl.
  - rewrite parseGtestList_walk. simpl. rewrite <- !app_assoc. reflexivity.
  - rewrite <- !app_assoc. reflexivity.
Qed.

(** The file is not there, and the binary is run all the same. *)
Lemma getChildren_ignores_fileExists_witness :
  trace (getChildren (withStat (fun _ => false) exampleHost) exampleTarget emptyState).2
  = [QueryOutputs {| cq_executable := str "bazel"; cq_workspacePath := str "/ws" |}
       (str "//x:y") None;
     Stat (str "/ws/bazel-bin/x/y");
     ExecFile (str "/ws/bazel-bin/x/y") [str "--gtest_list_tests"] (str "/ws")].
Proof.
  destruct (getChildren_ignores_fileExists exampleHost (fun _ => false) exampleTarget
              emptyState) as [Hsame Htrace].
  rewrite Hsame. exact (Htrace (str "/ws/bazel-bin/x/y") eq_refl).
Defined.

(** X18: when the query of the outputs is rejected, [getChildren] is
    rejected with the same error, having asked for no file and run no
    binary. *)
Theorem getChildren_query_rejected
    (host : Host) (this : BazelTargetTreeItem) (s : State) (e : JsError) :
  host_queryOutputs host
    {| cq_executable := host_bazelExecutablePath host;
       cq_workspacePath := bazelWorkspacePath (tt_workspaceInfo this) |}
    (rule_name (tt_target this)) None = Throw e ->
  getChildren host this s =
    (Throw e,
     {| heap := heap s;
        trace := trace s ++
          [QueryOutputs
             {| cq_executable := host_bazelExecutablePath host;
                cq_workspacePath := bazelWorkspacePath (tt_workspaceInfo this) |}
             (rule_name (tt_target this)) None];
        executions := executions s; listeners := listeners s |}).
Proof.
  intros Hquery.
  unfold getChildren, queryOutputs, bind, emit, liftCompletion. simpl.
  rewrite Hquery. reflexivity.
Qed.

Lemma getChildren_query_rejected_witness :
  (getChildren rejectingHost exampleTarget emptyState).1
  = Throw (Rejected (str "query failed")).
Proof.
  rewrite (getChildren_query_rejected rejectingHost exampleTarget emptyState
             (Rejected (str "query failed")) eq_refl).
  reflexivity.
Defined.

(** * The context value of a target item *)

Lemma startsWith_prefix (s p : jsstring) :
  startsWith s p = true <-> exists t, s = p ++ t.
Proof.
  revert p. induction s as [|b s IH]; intros [|a p]; simpl.
  - split; [exists []; reflexivity|reflexivity].
  - split; [discriminate|intros [t Ht]; discriminate Ht].
  - split; [exists (b :: s); reflexivity|reflexivity].
  - rewrite andb_true_iff, N.eqb_eq, IH. split.
    + intros [-> [t ->]]. exists t. reflexivity.
    + intros [t [= -> ->]]. split; [reflexivity|exists t; reflexivity].
Qed.

Lemma endsWith_suffix (s p : jsstring) :
  endsWith s p = true <-> exists t, s = t ++ p.
Proof.
  unfold endsWith. rewrite startsWith_prefix. split.
  - intros [t Ht]. exists (rev t).
    rewrite <- (rev_involutive s), Ht, rev_app_distr, rev_involutive. reflexivity.
  - intros [t ->]. exists (rev t). apply rev_app_distr.
Qed.

(** X19: the context value of a target item is "testRule" exactly when its
    rule class ends in "_test" or is "test_suite", and "rule" otherwise; so
    every item that might have children (rule class "cc_test") is a test
    rule. *)
Theorem getContextValue_of_test_rules (this : BazelTargetTreeItem) :
  (TargetItem.getContextValue this = str "testRule" <->
     (exists p, rule_ruleClass (tt_target this) = p ++ str "_test")
     \/ rule_ruleClass (tt_target this) = str "test_suite")
  /\ (TargetItem.getContextValue this = str "testRule"
      \/ TargetItem.getContextValue this = str "rule")
  /\ (TargetItem.mightHaveChildren this = true ->
      TargetItem.getContextValue this = str "testRule").
Proof.
  unfold TargetItem.getContextValue, TargetItem.mightHaveChildren.
  set (ruleClass := rule_ruleClass (tt_target this)).
  assert (Hiff : endsWith ruleClass (str "_test")
                 || bool_decide (ruleClass = str "test_suite") = true <->
                 (exists p, ruleClass = p ++ str "_test") \/ ruleClass = str "test_suite").
  { rewrite orb_true_iff, endsWith_suffix, bool_decide_eq_true. reflexivity. }
  split; [|split].
  - destruct (endsWith ruleClass (str "_test")
              || bool_decide (ruleClass = str "test_suite")).
    + split; [intros _; apply Hiff; reflexivity|reflexivity].
    + split; [intros H; vm_compute in H; discriminate H|].
      intros H. apply Hiff in H. discriminate H.
  - destruct (endsWith ruleClass (str "_test")
              || bool_decide (ruleClass = str "test_suite")); auto.
  - intros H. apply bool_decide_eq_true in H. rewrite H. reflexivity.
Qed.

Lemma getContextValue_of_test_rules_witness :
  TargetItem.getContextValue exampleTarget = str "testRule".
Proof.
  destruct (getContextValue_of_test_rules exampleTarget) as (_ & _ & H).
  apply H. reflexivity.
Defined.
